(** * SevsWhatsapp: the webhook relay of [main.py]

    A shallow embedding of [main.py] (a FastAPI service that relays WhatsApp
    messages to a SEVS eligibility backend) and the properties of its reply
    composer, its verification endpoint and its delivery handler.

    Python values are embedded as follows.
    - [str] is a sequence of Unicode code points ([list N]); literals are
      written [u "..."], which decodes the UTF-8 bytes of the Rocq literal.
    - what [json.loads] / [Response.json()] produce is the type [json]:
      [None], [bool], [int], [float], [str], [list] and [dict] (a [dict] is an
      association list in insertion order, looked up by first match).
    - an operation that can raise returns [result]; the handler, which calls
      external services, runs in the monad [io] that records every call. *)

From Stdlib Require Import List ZArith NArith Bool String Ascii Lia.
From Stdlib Require Import DecimalString.
Import ListNotations.

Set Implicit Arguments.

(** ** Python [str] *)

Module Str.

Definition char := N.
Definition str := list char.

(** UTF-8 decoding of a byte sequence, used for literals only: [need] is the
    number of continuation bytes still expected, [acc] the bits read so far. *)
Fixpoint utf8_decode (need : nat) (acc : N) (bs : list N) : str :=
  match bs with
  | [] => []
  | b :: bs' =>
    match need with
    | O =>
      if (b <? 128)%N then b :: utf8_decode 0 0 bs'
      else if (b <? 224)%N then utf8_decode 1 (b - 192) bs'
      else if (b <? 240)%N then utf8_decode 2 (b - 224) bs'
      else utf8_decode 3 (b - 240) bs'
    | S O => (acc * 64 + (b - 128))%N :: utf8_decode 0 0 bs'
    | S n => utf8_decode n (acc * 64 + (b - 128))%N bs'
    end
  end.

Definition u (s : string) : str :=
  utf8_decode 0 0 (map N_of_ascii (list_ascii_of_string s)).

(** [a == b] *)
Fixpoint str_eqb (a b : str) : bool :=
  match a, b with
  | [], [] => true
  | x :: a', y :: b' => (x =? y)%N && str_eqb a' b'
  | _, _ => false
  end.

(** [sep.join(xs)] *)
Fixpoint join (sep : str) (xs : list str) : str :=
  match xs with
  | [] => []
  | [x] => x
  | x :: rest => x ++ sep ++ join sep rest
  end.

(** [s.startswith(p)] *)
Fixpoint starts_with (p s : str) : bool :=
  match p, s with
  | [], _ => true
  | _ :: _, [] => false
  | a :: p', b :: s' => (a =? b)%N && starts_with p' s'
  end.

(** [needle in hay] *)
Fixpoint contains (needle hay : str) : bool :=
  starts_with needle hay ||
  match hay with
  | [] => false
  | _ :: hay' => contains needle hay'
  end.

(** [Py_UNICODE_ISSPACE]: the characters [str.strip()] removes. *)
Definition Py_UNICODE_ISSPACE (c : char) : bool :=
  ((9 <=? c) && (c <=? 13) || (28 <=? c) && (c <=? 32)
   || (c =? 133) || (c =? 160) || (c =? 5760)
   || (8192 <=? c) && (c <=? 8202)
   || (c =? 8232) || (c =? 8233) || (c =? 8239) || (c =? 8287)
   || (c =? 12288))%N.

Fixpoint lstrip (s : str) : str :=
  match s with
  | [] => []
  | c :: s' => if Py_UNICODE_ISSPACE c then lstrip s' else s
  end.

Definition rstrip (s : str) : str := rev (lstrip (rev s)).

(** [s.strip()] *)
Definition strip (s : str) : str := rstrip (lstrip s).

(** [str(z)] for an [int]. *)
Definition str_of_Z (z : Z) : str :=
  map N_of_ascii (list_ascii_of_string (NilZero.string_of_int (Z.to_int z))).

Definition newline : str := [10%N].

Definition hex_digit (n : N) : char :=
  (if n <? 10 then 48 + n else 87 + n)%N.

(** the [width] lowest hexadecimal digits of [n], most significant first *)
Fixpoint hex_fixed (width : nat) (n : N) : str :=
  match width with
  | O => []
  | S w => hex_fixed w (n / 16) ++ [hex_digit (n mod 16)]
  end.

End Str.
Import Str.

(** ** JSON values

    A Python [float] is observed by the handlers only through [str()] and
    truth testing; it is represented by these two observations. *)
Record pyfloat := { float_repr : str; float_bool : bool }.

#[warnings="-register-all"]
Inductive json :=
| JNull
| JBool (b : bool)
| JInt (z : Z)
| JFloat (f : pyfloat)
| JStr (s : str)
| JList (l : list json)
| JDict (d : list (str * json)).

Definition dict := list (str * json).

(** ** Exceptions and fallible operations

    Only subclasses of [Exception] are modelled (what [except Exception]
    catches). [exn_text] is [str(e)]; for the errors the interpreter raises
    itself the wording is CPython 3.11's. *)
Inductive exn_class :=
| AttributeError | KeyError | IndexError | TypeError | ValueError
| External (name : str).

Record exn := Exn { exn_cls : exn_class; exn_text : str }.

Inductive result (A : Type) :=
| Return (a : A)
| Raise (e : exn).
Arguments Return {A} a.
Arguments Raise {A} e.

Definition rbind {A B} (r : result A) (k : A -> result B) : result B :=
  match r with
  | Return a => k a
  | Raise e => Raise e
  end.

Declare Scope py_scope.
Delimit Scope py_scope with py.
Notation "x <- r ;; k" := (rbind r (fun x => k))
  (at level 61, r at next level, right associativity) : py_scope.
Open Scope py_scope.

(** [[f(x) for x in xs]], stopping at the first exception *)
Fixpoint mapM {A B} (f : A -> result B) (xs : list A) : result (list B) :=
  match xs with
  | [] => Return []
  | x :: xs' => y <- f x ;; ys <- mapM f xs' ;; Return (y :: ys)
  end.

(** a [for] loop over [xs] that threads the loop's variables [acc] *)
Fixpoint foldM {A S} (body : S -> A -> result S) (xs : list A) (acc : S)
  : result S :=
  match xs with
  | [] => Return acc
  | x :: xs' => acc' <- body acc x ;; foldM body xs' acc'
  end.

(** ** The interpreter's tables

    What the handlers observe of CPython beyond the code itself: the Unicode
    character database outside ASCII, the limit on int/str conversions
    ([sys.get_int_max_str_digits()], 0 when there is none) and the JSON
    parser. *)
Record Runtime := {
  ucd_isprintable : char -> bool;
  ucd_isdigit : char -> bool;
  ucd_decimal : char -> option N;
  int_max_str_digits : N;
  json_loads : str -> result json
}.

(** ** Built-in operations on JSON values *)
Section Builtins.

Variable rt : Runtime.

Definition Py_UNICODE_ISPRINTABLE (c : char) : bool :=
  if (c <? 128)%N then (32 <=? c)%N && (c <? 127)%N else ucd_isprintable rt c.

Definition Py_UNICODE_ISDIGIT (c : char) : bool :=
  if (c <? 128)%N then (48 <=? c)%N && (c <=? 57)%N else ucd_isdigit rt c.

Definition Py_UNICODE_TODECIMAL (c : char) : option N :=
  if (c <? 128)%N
  then if (48 <=? c)%N && (c <=? 57)%N then Some (c - 48)%N else None
  else ucd_decimal rt c.

(** [repr(s)] for a [str] *)
Definition repr_char (quote : char) (c : char) : str :=
  if (c =? quote)%N || (c =? 92)%N then [92; c]%N
  else if (c =? 9)%N then u "\t"
  else if (c =? 10)%N then u "\n"
  else if (c =? 13)%N then u "\r"
  else if (c <? 32)%N || (c =? 127)%N then u "\x" ++ hex_fixed 2 c
  else if (c <? 127)%N then [c]
  else if Py_UNICODE_ISPRINTABLE c then [c]
  else if (c <=? 255)%N then u "\x" ++ hex_fixed 2 c
  else if (c <=? 65535)%N then u "\u" ++ hex_fixed 4 c
  else u "\U" ++ hex_fixed 8 c.

Definition unicode_repr (s : str) : str :=
  let squote := existsb (N.eqb 39) s in
  let dquote := existsb (N.eqb 34) s in
  let quote := (if squote && negb dquote then 34 else 39)%N in
  [quote] ++ flat_map (repr_char quote) s ++ [quote].

(** [repr(v)] *)
Fixpoint py_repr (v : json) : str :=
  match v with
  | JNull => u "None"
  | JBool true => u "True"
  | JBool false => u "False"
  | JInt z => str_of_Z z
  | JFloat f => float_repr f
  | JStr s => unicode_repr s
  | JList l => u "[" ++ join (u ", ") (map py_repr l) ++ u "]"
  | JDict d =>
    u "{" ++
    join (u ", ")
      (map (fun kv => unicode_repr (fst kv) ++ u ": " ++ py_repr (snd kv)) d)
    ++ u "}"
  end.

(** [str(v)], which is what an f-string field [{v}] inserts *)
Definition py_str (v : json) : str :=
  match v with
  | JStr s => s
  | _ => py_repr v
  end.

(** [bool(v)] *)
Definition py_bool (v : json) : bool :=
  match v with
  | JNull => false
  | JBool b => b
  | JInt z => negb (z =? 0)%Z
  | JFloat f => float_bool f
  | JStr s => negb (str_eqb s [])
  | JList l => match l with [] => false | _ => true end
  | JDict d => match d with [] => false | _ => true end
  end.

(** [a or b] *)
Definition py_or (a b : json) : json := if py_bool a then a else b.

(** [type(v).__name__] *)
Definition type_name (v : json) : str :=
  match v with
  | JNull => u "NoneType"
  | JBool _ => u "bool"
  | JInt _ => u "int"
  | JFloat _ => u "float"
  | JStr _ => u "str"
  | JList _ => u "list"
  | JDict _ => u "dict"
  end.

Fixpoint dict_lookup (d : dict) (k : str) : option json :=
  match d with
  | [] => None
  | (k', v) :: d' => if str_eqb k' k then Some v else dict_lookup d' k
  end.

(** [v.get(k, default)]: only a [dict] has the method *)
Definition py_get (v : json) (k : str) (default : json) : result json :=
  match v with
  | JDict d =>
    match dict_lookup d k with
    | Some x => Return x
    | None => Return default
    end
  | _ =>
    Raise (Exn AttributeError
             (u "'" ++ type_name v ++ u "' object has no attribute 'get'"))
  end.

Definition not_subscriptable (v : json) : exn :=
  Exn TypeError (u "'" ++ type_name v ++ u "' object is not subscriptable").

(** [v[k]] for a [str] key *)
Definition py_getitem (v : json) (k : str) : result json :=
  match v with
  | JDict d =>
    match dict_lookup d k with
    | Some x => Return x
    | None => Raise (Exn KeyError (unicode_repr k))
    end
  | JList _ =>
    Raise (Exn TypeError (u "list indices must be integers or slices, not str"))
  | JStr _ =>
    Raise (Exn TypeError (u "string indices must be integers, not 'str'"))
  | _ => Raise (not_subscriptable v)
  end.

(** [v[0]]; the keys of a [dict] that came from JSON are all [str], so [0]
    is never one of them *)
Definition py_first (v : json) : result json :=
  match v with
  | JList l =>
    match l with
    | x :: _ => Return x
    | [] => Raise (Exn IndexError (u "list index out of range"))
    end
  | JStr s =>
    match s with
    | c :: _ => Return (JStr [c])
    | [] => Raise (Exn IndexError (u "string index out of range"))
    end
  | JDict _ => Raise (Exn KeyError (u "0"))
  | _ => Raise (not_subscriptable v)
  end.

(** [v[:n]] *)
Definition py_slice_to (v : json) (n : nat) : result json :=
  match v with
  | JList l => Return (JList (firstn n l))
  | JStr s => Return (JStr (firstn n s))
  | JDict _ => Raise (Exn TypeError (u "unhashable type: 'slice'"))
  | _ => Raise (not_subscriptable v)
  end.

(** [len(v)] *)
Definition py_len (v : json) : result nat :=
  match v with
  | JList l => Return (List.length l)
  | JStr s => Return (List.length s)
  | JDict d => Return (List.length d)
  | _ =>
    Raise (Exn TypeError
             (u "object of type '" ++ type_name v ++ u "' has no len()"))
  end.

(** the items a [for] loop or comprehension over [v] visits *)
Definition py_iter (v : json) : result (list json) :=
  match v with
  | JList l => Return l
  | JStr s => Return (map (fun c => JStr [c]) s)
  | JDict d => Return (map (fun kv => JStr (fst kv)) d)
  | _ =>
    Raise (Exn TypeError (u "'" ++ type_name v ++ u "' object is not iterable"))
  end.

End Builtins.

(** ** [compose_reply] *)
Section ReplyComposer.

Variable rt : Runtime.

Local Abbreviation py_str := (py_str rt).

(** [f'{a.get("variant","?")} {a.get("model_code","")}'.strip()] *)
Definition format_alternate (a : json) : result str :=
  variant <- py_get a (u "variant") (JStr (u "?")) ;;
  model_code <- py_get a (u "model_code") (JStr (u "")) ;;
  Return (strip (py_str variant ++ u " " ++ py_str model_code)).

(** the body of the loop [for row in data[:3]], up to [lines.append(line)] *)
Definition multi_match_line (row : json) : result str :=
  make <- py_get row (u "make") (JStr (u "")) ;;
  model <- py_get row (u "model") (JStr (u "")) ;;
  variant <- py_get row (u "variant") (JStr (u "")) ;;
  model_code <- py_get row (u "model_code") (JStr (u "")) ;;
  let line :=
    u "• " ++ py_str make ++ u " " ++ py_str model ++ u " " ++
    py_str variant ++ u " " ++ py_str model_code ++ u " — " in
  eligible <- py_get row (u "eligible") JNull ;;
  let line :=
    line ++ (if py_bool eligible then u "Eligible" else u "Not eligible") in
  expires_on <- py_get row (u "expires_on") JNull ;;
  line <- (if py_bool expires_on
           then e <- py_getitem rt row (u "expires_on") ;;
                Return (line ++ u "; expires " ++ py_str e)
           else Return line) ;;
  m <- py_get row (u "model_report") JNull ;;
  let mr := py_or m (JDict []) in
  has_report <- py_get mr (u "has_report") JNull ;;
  status <- (if py_bool has_report
             then s <- py_get mr (u "status") (JStr (u "none")) ;;
                  Return (py_str s)
             else Return (u "none")) ;;
  Return (line ++ u "; MR " ++ status).

Definition compose_reply (payload : json) : result str :=
  ok <- py_get payload (u "ok") JNull ;;
  if negb (py_bool ok) then
    Return (u "I couldn’t retrieve SEVS data right now. Try again in a moment.")
  else
  data <- py_get payload (u "data") (JList []) ;;
  if negb (py_bool data) then
    a <- py_get payload (u "alternates") JNull ;;
    let alts := py_or a (JList []) in
    if py_bool alts then
      items <- py_iter alts ;;
      formatted <- mapM format_alternate items ;;
      let alt_str := join (u ", ") (firstn 5 formatted) in
      Return (u "No exact match. Closest options: " ++ alt_str ++
              u ". Share the variant/model code and build year/month.")
    else
      Return (u "No matching SEVS entry found. Share the variant or model code and build year/month and I’ll re-check.")
  else
  n <- py_len data ;;
  if (1 <? n)%nat then
    let lines := [u "I found multiple matches:"] in
    head <- py_slice_to data 3 ;;
    rows <- py_iter head ;;
    lines <- foldM (fun lines row =>
                      line <- multi_match_line row ;;
                      Return (lines ++ [line])) rows lines ;;
    let lines :=
      lines ++ [u "Tell me the specific variant or model code and I’ll confirm."] in
    Return (join newline lines)
  else
  row <- py_first data ;;
  eligible <- py_get row (u "eligible") JNull ;;
  let verdict := if py_bool eligible then u "Eligible" else u "Not eligible" in
  let parts := [u "**" ++ verdict ++ u "**"] in
  reason <- py_get row (u "eligibility_reason") JNull ;;
  parts <- (if py_bool reason
            then r <- py_getitem rt row (u "eligibility_reason") ;;
                 Return (parts ++ [u "Reason: " ++ py_str r ++ u "."])
            else Return parts) ;;
  b <- py_get row (u "build_date_match") JNull ;;
  let bd := py_or b (JDict []) in
  lo <- py_get bd (u "from") JNull ;;
  bound <- (if py_bool lo then Return lo else py_get bd (u "to") JNull) ;;
  parts <- (if py_bool bound
            then f <- py_get bd (u "from") (JStr (u "?")) ;;
                 t <- py_get bd (u "to") (JStr (u "?")) ;;
                 Return (parts ++ [u "Build window: " ++ py_str f ++ u " → " ++
                                   py_str t ++ u "."])
            else Return parts) ;;
  expires_on <- py_get row (u "expires_on") JNull ;;
  parts <- (if py_bool expires_on
            then days <- py_get row (u "days_to_expiry") JNull ;;
                 d <- (match days with
                       | JNull => Return (u "")
                       | _ => v <- py_getitem rt row (u "days_to_expiry") ;;
                              Return (u " (" ++ py_str v ++ u " days)")
                       end) ;;
                 e <- py_getitem rt row (u "expires_on") ;;
                 Return (parts ++ [u "SEVS entry expires " ++ py_str e ++ d ++
                                   u "."])
            else Return parts) ;;
  expiring_soon <- py_get row (u "expiring_soon") JNull ;;
  let parts :=
    if py_bool expiring_soon
    then parts ++ [u "Flag: expiring soon. Start compliance steps ASAP."]
    else parts in
  m <- py_get row (u "model_report") JNull ;;
  let mr := py_or m (JDict []) in
  has_report <- py_get mr (u "has_report") JNull ;;
  parts <- (if py_bool has_report
            then status <- py_get mr (u "status") (JStr (u "unknown")) ;;
                 let s := u "Model report: " ++ py_str status in
                 mr_number <- py_get mr (u "mr_number") JNull ;;
                 s <- (if py_bool mr_number
                       then x <- py_getitem rt mr (u "mr_number") ;;
                            Return (s ++ u " — " ++ py_str x)
                       else Return s) ;;
                 issuer <- py_get mr (u "issuer") JNull ;;
                 s <- (if py_bool issuer
                       then x <- py_getitem rt mr (u "issuer") ;;
                            Return (s ++ u " (" ++ py_str x ++ u ")")
                       else Return s) ;;
                 Return (parts ++ [s ++ u "."])
            else Return (parts ++ [u "No valid model report on record; compliance not currently possible."])) ;;
  a <- py_get row (u "alternates") JNull ;;
  let alts := py_or a (JList []) in
  parts <- (if py_bool alts
            then head <- py_slice_to alts 3 ;;
                 items <- py_iter head ;;
                 formatted <- mapM format_alternate items ;;
                 let alt_str := join (u ", ") formatted in
                 Return (parts ++ [u "Closest alternatives: " ++ alt_str ++ u "."])
            else Return parts) ;;
  Return (join newline parts).

End ReplyComposer.

(** ** Process configuration and the services the handlers call *)

Record Config := {
  OPENAI_API_KEY : str;
  SUPABASE_URL : str;
  SUPABASE_KEY : str;
  WHATSAPP_TOKEN : str;
  VERIFY_TOKEN : str
}.

(** What [requests.post] returns: [http_error] is the [HTTPError] that
    [raise_for_status] builds for this response, [body_json] what
    [Response.json()] gives. *)
Record Response := {
  status_code : Z;
  http_error : exn;
  body_json : result json
}.

(** [choices[i].message] of a chat completion; [function_arguments] is
    [tool_call.function.arguments]. *)
Record ToolCall := { function_arguments : str }.
Record Message := { tool_calls : option (list ToolCall); content : option str }.
Record ChatCompletion := { choices : list Message }.

Record ChatRequest := {
  chat_model : str;
  chat_messages : json;
  chat_tools : json;
  chat_tool_choice : str
}.

Record Services := {
  requests_post : str -> list (str * str) -> json -> Z -> result Response;
  chat_completions_create : ChatRequest -> result ChatCompletion
}.

(** Every call that leaves the process, and every line printed. *)
Inductive event :=
| HttpPost (url : str) (headers : list (str * str)) (body : json) (timeout : Z)
| ChatCreate (req : ChatRequest)
| Print (line : str).

(** A handler step: the events it caused, in order, and its outcome. *)
Definition io (A : Type) : Type := list event * result A.

Definition ret {A} (a : A) : io A := ([], Return a).

Definition lift {A} (r : result A) : io A := ([], r).

Definition bind {A B} (c : io A) (k : A -> io B) : io B :=
  match c with
  | (t, Return a) => let (t', r) := k a in (t ++ t', r)
  | (t, Raise e) => (t, Raise e)
  end.

(** [try: c  except Exception as e: handler(e)] *)
Definition try_except {A} (c : io A) (handler : exn -> io A) : io A :=
  match c with
  | (t, Return a) => (t, Return a)
  | (t, Raise e) => let (t', r) := handler e in (t ++ t', r)
  end.

Definition print (line : str) : io unit := ([Print line], Return tt).

Notation "x <~ c ;; k" := (bind c (fun x => k))
  (at level 61, c at next level, right associativity) : py_scope.

Definition sevs_tool : json :=
  JDict [
    (u "type", JStr (u "function"));
    (u "function", JDict [
      (u "name", JStr (u "sevsEligibilityLookup"));
      (u "description",
       JStr (u "Query SEVS eligibility, expiry windows, and model-report status."));
      (u "parameters", JDict [
        (u "type", JStr (u "object"));
        (u "properties", JDict [
          (u "query_type", JDict [
             (u "type", JStr (u "string"));
             (u "enum", JList [JStr (u "vehicle_eligibility");
                               JStr (u "expiring_soon");
                               JStr (u "model_report_status")])]);
          (u "make", JDict [(u "type", JStr (u "string"))]);
          (u "model", JDict [(u "type", JStr (u "string"))]);
          (u "variant", JDict [(u "type", JStr (u "string"))]);
          (u "model_code", JDict [(u "type", JStr (u "string"))]);
          (u "build_date", JDict [(u "type", JStr (u "string"))]);
          (u "build_year", JDict [(u "type", JStr (u "integer"))]);
          (u "build_month", JDict [(u "type", JStr (u "integer"));
                                   (u "minimum", JInt 1);
                                   (u "maximum", JInt 12)]);
          (u "window_days", JDict [(u "type", JStr (u "integer"))]);
          (u "window_months", JDict [(u "type", JStr (u "integer"))]);
          (u "limit", JDict [(u "type", JStr (u "integer"));
                             (u "default", JInt 20)]);
          (u "cursor", JDict [(u "type", JStr (u "string"))])]);
        (u "required", JList [JStr (u "query_type")])])])].

Definition SYSTEM_PROMPT : str :=
  u "You are an Australian SEVS eligibility assistant. Be concise and precise. " ++
  u "Call the sevsEligibilityLookup tool for eligibility/expiring/model report questions. " ++
  u "Extract make, model, variant, model_code, build_date/year/month, window_days/months. " ++
  u "Explain the verdict and why using the tool JSON; ask for variant/model code if ambiguous.".

(** ** The handlers *)
Section Handlers.

Variable rt : Runtime.
Variable cfg : Config.
Variable svc : Services.

Definition post (url : str) (headers : list (str * str)) (body : json)
    (timeout : Z) : io Response :=
  ([HttpPost url headers body timeout], requests_post svc url headers body timeout).

(** [Response.raise_for_status()]: a 4xx or 5xx status raises *)
Definition raise_for_status (r : Response) : result unit :=
  if (400 <=? status_code r)%Z && (status_code r <? 600)%Z
  then Raise (http_error r)
  else Return tt.

Definition call_sevs (args : json) : io json :=
  let headers :=
    [(u "Content-Type", u "application/json");
     (u "apikey", SUPABASE_KEY cfg);
     (u "Authorization", u "Bearer " ++ SUPABASE_KEY cfg)] in
  r <~ post (SUPABASE_URL cfg) headers args 30 ;;
  _ <~ lift (raise_for_status r) ;;
  lift (body_json r).

Definition send_whatsapp_text (to_number : json) (text : str) : io unit :=
  let url := u "https://graph.facebook.com/v20.0/me/messages" in
  let headers :=
    [(u "Authorization", u "Bearer " ++ WHATSAPP_TOKEN cfg);
     (u "Content-Type", u "application/json")] in
  let body :=
    JDict [(u "messaging_product", JStr (u "whatsapp"));
           (u "to", to_number);
           (u "type", JStr (u "text"));
           (u "text", JDict [(u "preview_url", JBool false);
                             (u "body", JStr text)])] in
  r <~ post url headers body 30 ;;
  lift (raise_for_status r).

(** [s.isdigit()] *)
Definition isdigit (s : str) : bool :=
  negb (str_eqb s []) && forallb (Py_UNICODE_ISDIGIT rt) s.

(** [int(s)] for a [str] [s] made of digit characters only, as [verify]
    passes it: every character needs a decimal value, and a string longer
    than the conversion limit is refused. *)
Definition int_of_digits (s : str) : result Z :=
  let n := N.of_nat (List.length s) in
  let limit := int_max_str_digits rt in
  if ((640 <? n) && (0 <? limit) && (limit <? n))%N then
    Raise (Exn ValueError
             (u "Exceeds the limit (" ++ str_of_Z (Z.of_N limit) ++
              u " digits) for integer string conversion: value has " ++
              str_of_Z (Z.of_N n) ++
              u " digits; use sys.set_int_max_str_digits() to increase the limit"))
  else
    match
      fold_left (fun acc c =>
                   match acc, Py_UNICODE_TODECIMAL rt c with
                   | Some z, Some d => Some (z * 10 + Z.of_N d)%Z
                   | _, _ => None
                   end) s (Some 0%Z)
    with
    | Some z => Return z
    | None =>
      Raise (Exn ValueError
               (u "invalid literal for int() with base 10: " ++ unicode_repr rt s))
    end.

Definition opt_eqb (a : option str) (b : str) : bool :=
  match a with
  | Some a' => str_eqb a' b
  | None => false
  end.

(** [GET /webhook] *)
Definition verify (mode challenge token : option str) : result json :=
  if opt_eqb mode (u "subscribe") && opt_eqb token (VERIFY_TOKEN cfg) then
    match challenge with
    | Some c =>
      if negb (str_eqb c []) && isdigit c
      then z <- int_of_digits c ;; Return (JInt z)
      else Return (JStr c)
    | None => Return (JStr (u ""))
    end
  else Return (JStr (u "forbidden")).

(** the [try] / [except] that locates [value] in the payload *)
Definition locate_value (payload : json) : result json :=
  match
    (e <- py_getitem rt payload (u "entry") ;;
     x <- py_first e ;;
     c <- py_getitem rt x (u "changes[0]") ;;
     py_getitem rt c (u "value"))
  with
  | Return entry => Return entry
  | Raise _ =>
    e <- py_get payload (u "entry") (JList [JDict []]) ;;
    x <- py_first e ;;
    c <- py_get x (u "changes") (JList [JDict []]) ;;
    y <- py_first c ;;
    py_get y (u "value") (JDict [])
  end.

Definition ok_true : json := JDict [(u "ok", JBool true)].

(** [inbound], lines 111-120: the sender and the text of the first message,
    or [None] where the handler returns early with nothing to do *)
Definition incoming_message (payload : json) : result (option (json * json)) :=
  entry <- locate_value payload ;;
  messages <- py_get entry (u "messages") (JList []) ;;
  if negb (py_bool messages) then Return None else
  msg <- py_first messages ;;
  from_number <- py_getitem rt msg (u "from") ;;
  t <- py_get msg (u "text") (JDict []) ;;
  body <- py_get t (u "body") JNull ;;
  text <- (if py_bool body then Return body
           else i <- py_get msg (u "interactive") (JDict []) ;;
                r <- py_get i (u "nfm_reply") (JDict []) ;;
                py_get r (u "response_json") JNull) ;;
  if negb (py_bool text) then Return None else
  Return (Some (from_number, text)).

Definition chat_request (text : json) : ChatRequest :=
  {| chat_model := u "gpt-5-chat";
     chat_messages :=
       JList [JDict [(u "role", JStr (u "system"));
                     (u "content", JStr SYSTEM_PROMPT)];
              JDict [(u "role", JStr (u "user")); (u "content", text)]];
     chat_tools := JList [sevs_tool];
     chat_tool_choice := u "auto" |}.

(** [inbound], lines 122-143 *)
Definition respond (from_number text : json) : io json :=
  chat <~ ([ChatCreate (chat_request text)],
           chat_completions_create svc (chat_request text)) ;;
  message <~ lift (match choices chat with
                   | m :: _ => Return m
                   | [] => Raise (Exn IndexError (u "list index out of range"))
                   end) ;;
  reply_text <~
    (match tool_calls message with
     | Some (call :: _) =>
       args <~ lift (json_loads rt (function_arguments call)) ;;
       try_except
         (data <~ call_sevs args ;;
          lift (compose_reply rt data))
         (fun e => ret (u "I couldn’t reach the SEVS service. " ++ exn_text e))
     | _ =>
       ret (match content message with
            | Some (c :: s) => c :: s
            | _ => u "Tell me the make/model/variant or model code, and build year/month."
            end)
     end) ;;
  _ <~ try_except
         (send_whatsapp_text from_number reply_text)
         (fun e => print (u "Send error: " ++ exn_text e)) ;;
  ret ok_true.

(** [POST /webhook], applied to the decoded body *)
Definition inbound (payload : json) : io json :=
  m <~ lift (incoming_message payload) ;;
  match m with
  | None => ret ok_true
  | Some (from_number, text) => respond from_number text
  end.

End Handlers.

(** ** The reply, as the specification words it

    The functions below restate section 4.4 of the specification over a row
    ([dict]); the theorems compare them with what [compose_reply] builds. *)

(** what [d.get(k, default)] returns *)
Definition get_or (d : dict) (k : str) (default : json) : json :=
  match dict_lookup d k with
  | Some v => v
  | None => default
  end.

(** [d.get(k)] *)
Definition field (d : dict) (k : str) : json := get_or d k JNull.

(** a field that is absent or [null] *)
Definition missing (d : dict) (k : str) : Prop :=
  dict_lookup d k = None \/ dict_lookup d k = Some JNull.

Definition is_dict (v : json) : bool :=
  match v with
  | JDict _ => true
  | _ => false
  end.

(** [d[k] = v]: the value is replaced in place, a new key goes last *)
Fixpoint dict_set (d : dict) (k : str) (v : json) : dict :=
  match d with
  | [] => [(k, v)]
  | (k', v') :: d' =>
    if str_eqb k' k then (k, v) :: d' else (k', v') :: dict_set d' k v
  end.

(** [s.split("\n")] *)
Fixpoint split_lines (s : str) : list str :=
  match s with
  | [] => [[]]
  | c :: s' =>
    if (c =? 10)%N then [] :: split_lines s'
    else match split_lines s' with
         | l :: ls => (c :: l) :: ls
         | [] => [[c]]
         end
  end.

(** some line of [reply] is exactly [l] *)
Definition has_line (l reply : str) : bool :=
  existsb (str_eqb l) (split_lines reply).

(** some line of [reply] begins with [p] *)
Definition has_line_starting (p reply : str) : bool :=
  existsb (starts_with p) (split_lines reply).

Section ReplySpec.

Variable rt : Runtime.

Local Abbreviation py_str := (py_str rt).

Definition verdict (r : dict) : str :=
  if py_bool (field r (u "eligible")) then u "Eligible" else u "Not eligible".

(** the nested object stored under [k], empty when the field is falsy *)
Definition sub_object (r : dict) (k : str) : dict :=
  match py_or (field r k) (JDict []) with
  | JDict d => d
  | _ => []
  end.

Definition alternates_of (r : dict) : list json :=
  match py_or (field r (u "alternates")) (JList []) with
  | JList l => l
  | _ => []
  end.

(** one alternate, [{variant} {model_code}] *)
Definition alternate_text (a : json) : str :=
  match a with
  | JDict d =>
    strip (py_str (get_or d (u "variant") (JStr (u "?"))) ++ u " " ++
           py_str (get_or d (u "model_code") (JStr (u ""))))
  | _ => []
  end.

(** the status shown after [MR] in a multi-match bullet *)
Definition mr_status (r : dict) : str :=
  let mr := sub_object r (u "model_report") in
  if py_bool (field mr (u "has_report"))
  then py_str (get_or mr (u "status") (JStr (u "none")))
  else u "none".

(** one bullet of the multi-match summary *)
Definition match_bullet (row : json) : str :=
  match row with
  | JDict r =>
    u "• " ++ py_str (get_or r (u "make") (JStr (u ""))) ++ u " " ++
    py_str (get_or r (u "model") (JStr (u ""))) ++ u " " ++
    py_str (get_or r (u "variant") (JStr (u ""))) ++ u " " ++
    py_str (get_or r (u "model_code") (JStr (u ""))) ++ u " — " ++
    verdict r ++
    (if py_bool (field r (u "expires_on"))
     then u "; expires " ++ py_str (field r (u "expires_on"))
     else []) ++
    u "; MR " ++ mr_status r
  | _ => []
  end.

Definition reason_lines (r : dict) : list str :=
  if py_bool (field r (u "eligibility_reason"))
  then [u "Reason: " ++ py_str (field r (u "eligibility_reason")) ++ u "."]
  else [].

Definition build_lines (r : dict) : list str :=
  let bd := sub_object r (u "build_date_match") in
  if py_bool (field bd (u "from")) || py_bool (field bd (u "to"))
  then [u "Build window: " ++ py_str (get_or bd (u "from") (JStr (u "?"))) ++
        u " → " ++ py_str (get_or bd (u "to") (JStr (u "?"))) ++ u "."]
  else [].

Definition expiry_lines (r : dict) : list str :=
  if py_bool (field r (u "expires_on"))
  then [u "SEVS entry expires " ++ py_str (field r (u "expires_on")) ++
        match field r (u "days_to_expiry") with
        | JNull => []
        | v => u " (" ++ py_str v ++ u " days)"
        end ++ u "."]
  else [].

Definition flag_lines (r : dict) : list str :=
  if py_bool (field r (u "expiring_soon"))
  then [u "Flag: expiring soon. Start compliance steps ASAP."]
  else [].

Definition report_line (r : dict) : str :=
  let mr := sub_object r (u "model_report") in
  if py_bool (field mr (u "has_report"))
  then u "Model report: " ++ py_str (get_or mr (u "status") (JStr (u "unknown"))) ++
       (if py_bool (field mr (u "mr_number"))
        then u " — " ++ py_str (field mr (u "mr_number")) else []) ++
       (if py_bool (field mr (u "issuer"))
        then u " (" ++ py_str (field mr (u "issuer")) ++ u ")" else []) ++
       u "."
  else u "No valid model report on record; compliance not currently possible.".

Definition alternates_lines (r : dict) : list str :=
  match alternates_of r with
  | [] => []
  | l => [u "Closest alternatives: " ++
          join (u ", ") (map alternate_text (firstn 3 l)) ++ u "."]
  end.

(** the lines that render field values of the row as free text *)
Definition free_text_lines (r : dict) : list str :=
  reason_lines r ++ build_lines r ++ expiry_lines r ++ alternates_lines r.

(** the single-verdict block, line by line *)
Definition single_verdict_block (r : dict) : list str :=
  [u "**" ++ verdict r ++ u "**"] ++ reason_lines r ++ build_lines r ++
  expiry_lines r ++ flag_lines r ++ [report_line r] ++ alternates_lines r.

End ReplySpec.

(** The shape the composer needs from a single row: the nested
    [build_date_match] and [model_report] are objects (or falsy), and
    [alternates] is a list (or falsy) whose first three items are objects. *)
Definition well_formed_row (r : dict) : bool :=
  is_dict (py_or (field r (u "build_date_match")) (JDict [])) &&
  is_dict (py_or (field r (u "model_report")) (JDict [])) &&
  match py_or (field r (u "alternates")) (JList []) with
  | JList l => forallb is_dict (firstn 3 l)
  | _ => false
  end.

(** The shape the composer needs from a row of the multi-match summary. *)
Definition well_formed_match (row : json) : bool :=
  match row with
  | JDict r => is_dict (py_or (field r (u "model_report")) (JDict []))
  | _ => false
  end.

(** ** Vocabulary of the statements, and concrete inputs *)

(** An interpreter whose Unicode tables stop at ASCII, with CPython's default
    conversion limit; its JSON parser only knows the empty object. *)
Definition ascii_runtime : Runtime :=
  {| ucd_isprintable := fun _ => false;
     ucd_isdigit := fun _ => false;
     ucd_decimal := fun _ => None;
     int_max_str_digits := 4300;
     json_loads := fun s =>
       if str_eqb s (u "{}") then Return (JDict [])
       else Raise (Exn (External (u "JSONDecodeError")) (u "Expecting value")) |}.

Arguments u s : simpl never.

(** the text has no line break *)
Definition no_newline (s : str) : bool := forallb (fun c => negb (c =? 10)%N) s.

(** scenario 1 of the specification: one row, [eligible] true, [expires_on]
    null and no optional field *)
Definition hilux_row : dict :=
  [(u "make", JStr (u "Toyota")); (u "model", JStr (u "Hilux"));
   (u "variant", JStr (u "SR5")); (u "model_code", JStr (u "GUN126R"));
   (u "eligible", JBool true); (u "expires_on", JNull)].

Definition hilux_envelope : dict :=
  [(u "ok", JBool true); (u "data", JList [JDict hilux_row])].

Definition failed_envelope : dict :=
  [(u "ok", JBool false); (u "data", JList [JDict hilux_row]);
   (u "alternates", JList [JDict [(u "variant", JStr (u "SR"))]])].

Definition five_rows : list json :=
  [JDict hilux_row;
   JDict [(u "make", JStr (u "Toyota")); (u "model", JStr (u "Hilux"));
          (u "variant", JStr (u "SR")); (u "model_code", JStr (u "GUN125R"));
          (u "eligible", JBool false); (u "expires_on", JStr (u "2026-01-31"));
          (u "model_report",
           JDict [(u "has_report", JBool true); (u "status", JStr (u "active"))])];
   JDict [(u "make", JStr (u "Toyota")); (u "model", JStr (u "Hilux"));
          (u "variant", JStr (u "Rogue")); (u "model_code", JStr (u "GUN126R"))];
   JInt 4; JNull].

Definition five_rows_envelope : dict :=
  [(u "ok", JBool true); (u "data", JList five_rows)].

Definition bare_alternate_envelope : dict :=
  [(u "ok", JBool true); (u "data", JList []);
   (u "alternates",
    JList [JDict [(u "variant", JStr (u "SR5")); (u "model_code", JStr (u ""))]])].

(** an ASCII decimal digit *)
Definition is_ascii_digit (c : char) : bool := ((48 <=? c) && (c <=? 57))%N.

(** the number a string of ASCII digits denotes *)
Definition decimal_value (s : str) : Z :=
  fold_left (fun acc c => (acc * 10 + Z.of_N (c - 48))%Z) s 0%Z.

(** the string is not refused for its length by the interpreter's limit on
    int/str conversions *)
Definition within_conversion_limit (rt : Runtime) (s : str) : Prop :=
  int_max_str_digits rt = 0%N \/ List.length s <= 640 \/
  (N.of_nat (List.length s) <= int_max_str_digits rt)%N.

(** the payload has the platform's conventional shape
    [entry[0].changes[0].value], and [value] is found there *)
Definition conventional (p : dict) (value : json) : Prop :=
  exists (e c : dict) (entries changes : list json),
    dict_lookup p (u "entry") = Some (JList (JDict e :: entries)) /\
    dict_lookup e (u "changes[0]") = None /\
    dict_lookup e (u "changes") = Some (JList (JDict c :: changes)) /\
    dict_lookup c (u "value") = Some value.

(** the one request [call_sevs] makes *)
Definition backend_request (cfg : Config) (args : json) : event :=
  HttpPost (SUPABASE_URL cfg)
    [(u "Content-Type", u "application/json");
     (u "apikey", SUPABASE_KEY cfg);
     (u "Authorization", u "Bearer " ++ SUPABASE_KEY cfg)]
    args 30.

(** the one request [send_whatsapp_text] makes *)
Definition send_request (cfg : Config) (to_number : json) (text : str) : event :=
  HttpPost (u "https://graph.facebook.com/v20.0/me/messages")
    [(u "Authorization", u "Bearer " ++ WHATSAPP_TOKEN cfg);
     (u "Content-Type", u "application/json")]
    (JDict [(u "messaging_product", JStr (u "whatsapp"));
            (u "to", to_number);
            (u "type", JStr (u "text"));
            (u "text", JDict [(u "preview_url", JBool false);
                              (u "body", JStr text)])])
    30.

Definition flagged_reason_row : dict :=
  [(u "eligible", JBool false);
   (u "eligibility_reason", JStr (u "Flag: expiring soon"));
   (u "model_report", JDict [(u "has_report", JBool false)])].

Definition flagged_reason_envelope : dict :=
  [(u "ok", JBool true); (u "data", JList [JDict flagged_reason_row])].

Definition demo_config : Config :=
  {| OPENAI_API_KEY := u "sk-test";
     SUPABASE_URL := u "https://sevs.example/functions/v1/lookup";
     SUPABASE_KEY := u "service-key";
     WHATSAPP_TOKEN := u "wa-token";
     VERIFY_TOKEN := u "let-me-in" |}.

Definition timeout_error : exn := Exn (External (u "ReadTimeout")) (u "timed out").

Definition ok_response : Response :=
  {| status_code := 200;
     http_error := Exn (External (u "HTTPError")) (u "");
     body_json := Return (JDict []) |}.

Definition lookup_call : ToolCall := {| function_arguments := u "{}" |}.

Definition lookup_message : Message :=
  {| tool_calls := Some [lookup_call]; content := None |}.

(** the oracle asks for a lookup, the backend times out, the transport works *)
Definition backend_down : Services :=
  {| requests_post := fun url _ _ _ =>
       if str_eqb url (SUPABASE_URL demo_config) then Raise timeout_error
       else Return ok_response;
     chat_completions_create := fun _ =>
       Return {| choices := [lookup_message] |} |}.

Definition delivery (value : json) : dict :=
  [(u "object", JStr (u "whatsapp_business_account"));
   (u "entry", JList [JDict [(u "changes", JList [JDict [(u "value", value)]])]])].

Definition question : json := JStr (u "Is a 2019 Toyota Hilux SR5 eligible?").

Definition sender : json := JStr (u "61400000000").

Definition text_delivery : dict :=
  delivery (JDict [(u "messages",
                    JList [JDict [(u "from", sender);
                                  (u "text", JDict [(u "body", question)])]])]).

Definition delivery_without_from : dict :=
  delivery (JDict [(u "messages",
                    JList [JDict [(u "text", JDict [(u "body", question)])]])]).

Definition delivery_without_messages : dict :=
  delivery (JDict [(u "statuses", JList [])]).

(** a row with an expiry, zero days left, a one-sided build window, a report
    without status and four alternates, the last of which is not an object *)
Definition expiring_row : dict :=
  [(u "eligible", JBool true);
   (u "expires_on", JStr (u "2026-03-31"));
   (u "days_to_expiry", JInt 0);
   (u "expiring_soon", JBool true);
   (u "build_date_match", JDict [(u "from", JStr (u "2015-01"))]);
   (u "model_report", JDict [(u "has_report", JBool true)]);
   (u "alternates",
    JList [JDict [(u "variant", JStr (u "SR"))]; JDict [];
           JDict [(u "model_code", JStr (u "GUN125R"))]; JInt 7])].

Definition expiring_envelope : dict :=
  [(u "ok", JBool true); (u "data", JList [JDict expiring_row])].

(** six top-level alternates, the sixth of which is a plain string *)
Definition six_alternates_envelope : dict :=
  [(u "ok", JBool true); (u "data", JList []);
   (u "alternates",
    JList [JDict [(u "variant", JStr (u "SR"))];
           JDict [(u "variant", JStr (u "SR5"))];
           JDict [(u "variant", JStr (u "Rogue"))];
           JDict [(u "variant", JStr (u "Rugged"))];
           JDict [(u "variant", JStr (u "Workmate"))];
           JStr (u "GXL")])].

(** [s] neither starts nor ends with a character that [strip] removes *)
Definition no_outer_space (s : str) : bool :=
  match s with
  | [] => true
  | c :: _ => negb (Py_UNICODE_ISSPACE c)
  end &&
  match rev s with
  | [] => true
  | c :: _ => negb (Py_UNICODE_ISSPACE c)
  end.

(** An interpreter that knows two facts of the Unicode database beyond
    ASCII: SUPERSCRIPT TWO (U+00B2) is a digit without a decimal value, and
    the ARABIC-INDIC DIGITS (U+0660 to U+0669) are decimal digits. *)
Definition sample_unicode_runtime : Runtime :=
  {| ucd_isprintable := fun _ => false;
     ucd_isdigit := fun c => ((c =? 178) || (1632 <=? c) && (c <=? 1641))%N;
     ucd_decimal := fun c =>
       if ((1632 <=? c) && (c <=? 1641))%N then Some (c - 1632)%N else None;
     int_max_str_digits := 4300;
     json_loads := fun _ => Raise (Exn ValueError (u "Expecting value")) |}.

(** the number a string of decimal digits of any script denotes *)
Definition digits_value (rt : Runtime) (s : str) : Z :=
  fold_left (fun acc c =>
               (acc * 10 +
                Z.of_N (match Py_UNICODE_TODECIMAL rt c with
                        | Some d => d
                        | None => 0
                        end))%Z) s 0%Z.

Definition redirect_response : Response :=
  {| status_code := 302;
     http_error := Exn (External (u "HTTPError")) (u "302 Found");
     body_json := Return (JDict [(u "ok", JBool false)]) |}.

Definition redirecting_backend : Services :=
  {| requests_post := fun _ _ _ _ => Return redirect_response;
     chat_completions_create := fun _ => Return {| choices := [lookup_message] |} |}.

(** a response with a success status whose body is not JSON *)
Definition empty_body_response : Response :=
  {| status_code := 200;
     http_error := Exn (External (u "HTTPError")) (u "");
     body_json := Raise (Exn (External (u "JSONDecodeError")) (u "Expecting value")) |}.

Definition silent_transport : Services :=
  {| requests_post := fun _ _ _ _ => Return empty_body_response;
     chat_completions_create := fun _ => Return {| choices := [lookup_message] |} |}.

(** what the handler prints after it has tried to send [text] *)
Definition send_log (cfg : Config) (svc : Services) (to_number : json)
    (text : str) : list event :=
  match snd (send_whatsapp_text cfg svc to_number text) with
  | Return _ => []
  | Raise e => [Print (u "Send error: " ++ exn_text e)]
  end.

Definition is_chat (e : event) : bool :=
  match e with ChatCreate _ => true | _ => false end.

Definition is_post (e : event) : bool :=
  match e with HttpPost _ _ _ _ => true | _ => false end.

Definition is_print (e : event) : bool :=
  match e with Print _ => true | _ => false end.

Definition answer_message : Message :=
  {| tool_calls := None;
     content := Some (u "SEVS is the Specialist and Enthusiast Vehicle Scheme.") |}.

(** the oracle answers by itself, the transport works *)
Definition oracle_answers : Services :=
  {| requests_post := fun _ _ _ _ => Return ok_response;
     chat_completions_create := fun _ => Return {| choices := [answer_message] |} |}.

(** the oracle cannot be reached *)
Definition oracle_down : Services :=
  {| requests_post := fun _ _ _ _ => Return ok_response;
     chat_completions_create := fun _ =>
       Raise (Exn (External (u "APIConnectionError")) (u "Connection error.")) |}.

(** the oracle asks for a lookup with arguments that are not JSON *)
Definition oracle_garbles : Services :=
  {| requests_post := fun _ _ _ _ => Return ok_response;
     chat_completions_create := fun _ =>
       Return {| choices :=
                   [{| tool_calls := Some [{| function_arguments := u "{query" |}];
                       content := None |}] |} |}.

Definition backend_response (body : json) : Response :=
  {| status_code := 200;
     http_error := Exn (External (u "HTTPError")) (u "");
     body_json := Return body |}.

(** the oracle asks for a lookup and the backend answers with [body] *)
Definition backend_answers (body : json) : Services :=
  {| requests_post := fun url _ _ _ =>
       if str_eqb url (SUPABASE_URL demo_config)
       then Return (backend_response body)
       else Return ok_response;
     chat_completions_create := fun _ => Return {| choices := [lookup_message] |} |}.

(** a delivery whose first entry carries the value under the literal key
    [changes[0]] and has an empty [changes] list *)
Definition literal_key_delivery : dict :=
  [(u "entry",
    JList [JDict [(u "changes", JList []);
                  (u "changes[0]",
                   JDict [(u "value", JDict [(u "statuses", JList [])])])]])].

Definition two_message_delivery : dict :=
  delivery (JDict [(u "messages",
                    JList [JDict [(u "from", sender);
                                  (u "text", JDict [(u "body", question)])];
                           JStr (u "not a message")])]).

Definition envelope_without_ok : dict :=
  [(u "data", JList [JDict hilux_row])].

Definition empty_entry_delivery : dict :=
  [(u "object", JStr (u "whatsapp_business_account")); (u "entry", JList [])].

Unset Implicit Arguments.

(** * Properties *)

(** ** Lists of characters *)

Lemma str_eqb_eq (a b : str) : str_eqb a b = true <-> a = b.
Proof.
  revert b. induction a as [|x a IH]; intros [|y b]; simpl;
    try (split; [discriminate|discriminate]); [tauto|].
  rewrite andb_true_iff, N.eqb_eq, IH. split.
  - now intros [-> ->].
  - intros H. injection H as -> ->. now split.
Qed.

Lemma str_eqb_refl (a : str) : str_eqb a a = true.
Proof. now apply str_eqb_eq. Qed.

Lemma str_eqb_neq (a b : str) : a <> b -> str_eqb a b = false.
Proof.
  intros H. destruct (str_eqb a b) eqn:E; [|reflexivity].
  now apply str_eqb_eq in E.
Qed.

Lemma starts_with_app (p s : str) : starts_with p (p ++ s) = true.
Proof.
  induction p as [|c p IH]; simpl; [reflexivity|].
  now rewrite N.eqb_refl, IH.
Qed.

Lemma starts_with_app_r (p a b : str) :
  starts_with p a = true -> starts_with p (a ++ b) = true.
Proof.
  revert a. induction p as [|c p IH]; intros [|x a] H; simpl in *;
    try reflexivity; try discriminate.
  apply andb_true_iff in H as [H1 H2]. now rewrite H1, IH.
Qed.

Lemma contains_here (n s : str) : starts_with n s = true -> contains n s = true.
Proof. intros H. destruct s; simpl in *; now rewrite H. Qed.

Lemma contains_app_r (n a b : str) :
  contains n b = true -> contains n (a ++ b) = true.
Proof.
  intros H. induction a as [|c a IH]; simpl; [exact H|].
  rewrite IH. apply orb_true_r.
Qed.

Lemma contains_app_l (n a b : str) :
  contains n a = true -> contains n (a ++ b) = true.
Proof.
  induction a as [|c a IH]; simpl; intros H.
  - rewrite orb_false_r in H. destruct n; [|discriminate].
    destruct b; reflexivity.
  - apply orb_true_iff in H as [H|H].
    + change (starts_with n ((c :: a) ++ b) || contains n (a ++ b) = true).
      now rewrite (starts_with_app_r _ _ _ H).
    + rewrite (IH H). apply orb_true_r.
Qed.

Lemma contains_middle (n a b : str) : contains n (a ++ n ++ b) = true.
Proof. apply contains_app_r, contains_here, starts_with_app. Qed.

Lemma contains_join (sep n : str) (parts : list str) (p : str) :
  In p parts -> contains n p = true -> contains n (join sep parts) = true.
Proof.
  induction parts as [|x parts IH]; intros Hin Hp; [destruct Hin|].
  destruct parts as [|y parts].
  - destruct Hin as [->|[]]. exact Hp.
  - change (contains n (x ++ sep ++ join sep (y :: parts)) = true).
    destruct Hin as [->|Hin].
    + now apply contains_app_l.
    + apply contains_app_r, contains_app_r. now apply IH.
Qed.

(** ** Lines of a reply *)

Lemma split_lines_cons (s : str) : exists l ls, split_lines s = l :: ls.
Proof.
  induction s as [|c s [l [ls IH]]]; simpl; [now eexists; eexists|].
  destruct (c =? 10)%N; [now eexists; eexists|].
  rewrite IH. now eexists; eexists.
Qed.

Lemma split_lines_app (a b : str) :
  split_lines (a ++ 10%N :: b) = split_lines a ++ split_lines b.
Proof.
  induction a as [|c a IH]; simpl; [reflexivity|].
  destruct (c =? 10)%N; [now rewrite IH|].
  rewrite IH. destruct (split_lines_cons a) as [l [ls E]]. now rewrite E.
Qed.

Lemma split_lines_join (p : str) (parts : list str) :
  split_lines (join newline (p :: parts)) = flat_map split_lines (p :: parts).
Proof.
  revert p. induction parts as [|q parts IH]; intros p.
  - simpl. now rewrite app_nil_r.
  - change (join newline (p :: q :: parts))
      with (p ++ 10%N :: join newline (q :: parts)).
    rewrite split_lines_app, IH. reflexivity.
Qed.

Lemma split_lines_no_newline (s : str) :
  no_newline s = true -> split_lines s = [s].
Proof.
  induction s as [|c s IH]; simpl; [reflexivity|].
  intros H. apply andb_true_iff in H as [Hc Hs].
  apply negb_true_iff in Hc. now rewrite Hc, (IH Hs).
Qed.

Lemma first_line_starts_with (p s : str) :
  no_newline p = true -> starts_with p s = true ->
  exists l ls, split_lines s = l :: ls /\ starts_with p l = true.
Proof.
  revert s. induction p as [|c p IH]; intros s Hp Hs.
  - destruct (split_lines_cons s) as [l [ls E]]. now exists l, ls.
  - destruct s as [|x s]; [discriminate|]. simpl in Hp, Hs.
    apply andb_true_iff in Hp as [Hc Hp]. apply andb_true_iff in Hs as [Hx Hs].
    apply N.eqb_eq in Hx. subst x. apply negb_true_iff in Hc.
    destruct (IH s Hp Hs) as [l [ls [E Hl]]].
    exists (c :: l), ls. simpl. rewrite Hc, E. split; [reflexivity|].
    simpl. now rewrite N.eqb_refl.
Qed.

Lemma first_line_starts_with_eq (p s : str) :
  no_newline p = true ->
  starts_with p s = starts_with p (hd [] (split_lines s)).
Proof.
  revert s. induction p as [|c p IH]; intros s Hp.
  - destruct (split_lines_cons s) as [l [ls E]]. rewrite E.
    destruct s; reflexivity.
  - simpl in Hp. apply andb_true_iff in Hp as [Hc Hp].
    apply negb_true_iff in Hc.
    destruct s as [|x s]; [reflexivity|]. simpl.
    destruct (x =? 10)%N eqn:Ex.
    + apply N.eqb_eq in Ex. subst x. simpl. now rewrite Hc.
    + specialize (IH s Hp).
      destruct (split_lines_cons s) as [l [ls E]]. rewrite E in *. simpl in *.
      now rewrite IH.
Qed.

Lemma contains_lines (n s : str) :
  no_newline n = true ->
  contains n s = existsb (contains n) (split_lines s).
Proof.
  intros Hn. induction s as [|c s IH]; simpl.
  - now rewrite !orb_false_r.
  - destruct (c =? 10)%N eqn:Ec.
    + apply N.eqb_eq in Ec. subst c.
      cbn [existsb contains]. rewrite <- IH, orb_false_r.
      rewrite first_line_starts_with_eq by exact Hn. simpl. reflexivity.
    + pose proof (first_line_starts_with_eq n (c :: s) Hn) as Hf.
      simpl in Hf. rewrite Ec in Hf.
      destruct (split_lines_cons s) as [l [ls E]]. rewrite E in *.
      cbn [existsb] in *. simpl in Hf.
      change (contains n (c :: l))
        with (starts_with n (c :: l) || contains n l).
      rewrite <- Hf, IH. now rewrite orb_assoc.
Qed.

Lemma existsb_flat_map {A B} (f : B -> bool) (g : A -> list B) (xs : list A) :
  existsb f (flat_map g xs) = existsb (fun x => existsb f (g x)) xs.
Proof.
  induction xs as [|x xs IH]; simpl; [reflexivity|].
  now rewrite existsb_app, IH.
Qed.

(** A text without a newline occurs in the joined reply only inside one of
    the joined parts. *)
Lemma contains_join_inv (n p : str) (parts : list str) :
  no_newline n = true ->
  contains n (join newline (p :: parts)) = true ->
  exists q, In q (p :: parts) /\ contains n q = true.
Proof.
  intros Hn H.
  rewrite (contains_lines n _ Hn), split_lines_join, existsb_flat_map in H.
  apply existsb_exists in H as [q [Hq Hc]].
  exists q. split; [exact Hq|]. now rewrite (contains_lines n q Hn).
Qed.

Lemma has_line_join (l : str) (parts : list str) :
  no_newline l = true -> In l parts -> has_line l (join newline parts) = true.
Proof.
  intros Hl Hin. destruct parts as [|p parts]; [destruct Hin|].
  unfold has_line. rewrite split_lines_join, existsb_flat_map.
  apply existsb_exists. exists l. split; [exact Hin|].
  rewrite (split_lines_no_newline _ Hl). simpl. now rewrite str_eqb_refl.
Qed.

Lemma has_line_starting_join (p part : str) (parts : list str) :
  no_newline p = true -> In part parts -> starts_with p part = true ->
  has_line_starting p (join newline parts) = true.
Proof.
  intros Hp Hin Hs. destruct parts as [|q parts]; [destruct Hin|].
  unfold has_line_starting. rewrite split_lines_join, existsb_flat_map.
  apply existsb_exists. exists part. split; [exact Hin|].
  destruct (first_line_starts_with _ _ Hp Hs) as [l [ls [E Hl]]].
  rewrite E. simpl. now rewrite Hl.
Qed.

(** ** Reading fields, and the two renderers *)

Lemma py_get_dict (d : dict) (k : str) (v : json) :
  py_get (JDict d) k v = Return (get_or d k v).
Proof. unfold py_get, get_or. now destruct (dict_lookup d k). Qed.

Lemma truthy_present (d : dict) (k : str) :
  py_bool (field d k) = true -> dict_lookup d k = Some (field d k).
Proof.
  unfold field, get_or. destruct (dict_lookup d k); [reflexivity|discriminate].
Qed.

Lemma not_none_present (d : dict) (k : str) :
  field d k <> JNull -> dict_lookup d k = Some (field d k).
Proof.
  unfold field, get_or. destruct (dict_lookup d k); [reflexivity|congruence].
Qed.

Lemma py_getitem_present (rt : Runtime) (d : dict) (k : str) (v : json) :
  dict_lookup d k = Some v -> py_getitem rt (JDict d) k = Return v.
Proof. intros H. unfold py_getitem. now rewrite H. Qed.

Lemma get_or_present (d : dict) (k : str) (v : json) :
  py_bool (field d k) = true -> get_or d k v = field d k.
Proof.
  intros H. apply truthy_present in H. unfold get_or at 1. now rewrite H.
Qed.

Lemma missing_field (d : dict) (k : str) : missing d k -> field d k = JNull.
Proof. unfold field, get_or. now intros [-> | ->]. Qed.

Lemma dict_lookup_set (d : dict) (k k' : str) (v : json) :
  dict_lookup (dict_set d k v) k' =
  if str_eqb k k' then Some v else dict_lookup d k'.
Proof.
  induction d as [|[k0 v0] d IH]; simpl.
  - reflexivity.
  - destruct (str_eqb k0 k) eqn:E0; simpl.
    + apply str_eqb_eq in E0. subst k0. now destruct (str_eqb k k').
    + rewrite IH. destruct (str_eqb k0 k') eqn:E1; [|reflexivity].
      apply str_eqb_eq in E1. subst k0. now rewrite str_eqb_neq
        by (intros ->; now rewrite str_eqb_refl in E0).
Qed.

Lemma is_dict_inv (v : json) : is_dict v = true -> exists d, v = JDict d.
Proof. destruct v; try discriminate. now eexists. Qed.

Section ComposerFacts.

Variable rt : Runtime.

Lemma mapM_format_alternate (l : list json) :
  forallb is_dict l = true ->
  mapM (format_alternate rt) l = Return (map (alternate_text rt) l).
Proof.
  induction l as [|a l IH]; simpl; [reflexivity|].
  intros H. apply andb_true_iff in H as [Ha Hl].
  apply is_dict_inv in Ha as [d ->].
  unfold format_alternate at 1. rewrite !py_get_dict. cbn [rbind].
  now rewrite (IH Hl).
Qed.

(** the loop body of the multi-match branch computes the bullet *)
Lemma multi_match_line_bullet (row : json) :
  well_formed_match row = true ->
  multi_match_line rt row = Return (match_bullet rt row).
Proof.
  destruct row as [| | | | | |r]; try discriminate. cbn [well_formed_match].
  intros Hwf. apply is_dict_inv in Hwf as [mr Hmr].
  unfold multi_match_line, match_bullet, mr_status, sub_object, verdict.
  rewrite !py_get_dict. cbn [rbind]. fold (field r (u "expires_on")).
  fold (field r (u "eligible")) (field r (u "model_report")).
  rewrite Hmr. rewrite !py_get_dict. cbn [rbind].
  fold (field mr (u "has_report")).
  destruct (py_bool (field r (u "expires_on"))) eqn:Eexp.
  - rewrite (py_getitem_present rt _ _ _ (truthy_present _ _ Eexp)). cbn [rbind].
    destruct (py_bool (field mr (u "has_report"))); cbn [rbind];
      now rewrite <- !app_assoc.
  - cbn [rbind].
    destruct (py_bool (field mr (u "has_report"))); cbn [rbind];
      now rewrite <- !app_assoc, ?app_nil_l.
Qed.

Lemma foldM_lines (rows : list json) (lines : list str) :
  forallb well_formed_match rows = true ->
  foldM (fun lines row =>
           line <- multi_match_line rt row ;; Return (lines ++ [line]))
        rows lines
  = Return (lines ++ map (match_bullet rt) rows).
Proof.
  revert lines. induction rows as [|row rows IH]; intros lines H; simpl.
  - now rewrite app_nil_r.
  - apply andb_true_iff in H as [Hr Hrows].
    rewrite (multi_match_line_bullet _ Hr). cbn [rbind].
    rewrite (IH _ Hrows), <- app_assoc. reflexivity.
Qed.

End ComposerFacts.

(** [stage rhs]: the first statement of the remaining program evaluates to
    [rhs]; it is replaced by its value. *)
Ltac stage rhs :=
  match goal with
  | |- rbind ?S _ = _ =>
    let E := fresh "E" in
    assert (E : S = Return rhs); [|rewrite E; cbn [rbind]; clear E]
  end.

Section SingleRow.

Variable rt : Runtime.

Lemma single_row_reply (d r : dict) :
  py_bool (field d (u "ok")) = true ->
  get_or d (u "data") (JList []) = JList [JDict r] ->
  well_formed_row r = true ->
  compose_reply rt (JDict d) = Return (join newline (single_verdict_block rt r)).
Proof.
  intros Hok Hdata Hwf.
  unfold well_formed_row in Hwf.
  apply andb_true_iff in Hwf as [Hwf Halts].
  apply andb_true_iff in Hwf as [Hbd Hmr].
  apply is_dict_inv in Hbd as [bd Hbd]. apply is_dict_inv in Hmr as [mr Hmr].
  unfold compose_reply.
  rewrite py_get_dict. cbn [rbind]. fold (field d (u "ok")). rewrite Hok.
  cbn [negb]. rewrite py_get_dict. cbn [rbind]. rewrite Hdata.
  cbn [py_bool negb py_len List.length rbind Nat.ltb Nat.leb py_first].
  rewrite !py_get_dict. cbn [rbind].
  repeat match goal with
         | |- context [get_or r ?k JNull] => fold (field r k)
         end.
  rewrite Hbd, Hmr. fold (verdict r).
  (* reason *)
  stage ([u "**" ++ verdict r ++ u "**"] ++ reason_lines rt r).
  { unfold reason_lines.
    destruct (py_bool (field r (u "eligibility_reason"))) eqn:E.
    - now rewrite (py_getitem_present rt _ _ _ (truthy_present _ _ E)).
    - now rewrite app_nil_r. }
  (* build window *)
  rewrite py_get_dict. cbn [rbind]. fold (field bd (u "from")).
  stage (if py_bool (field bd (u "from")) then field bd (u "from")
         else field bd (u "to")).
  { destruct (py_bool (field bd (u "from"))); [reflexivity|].
    now rewrite py_get_dict. }
  stage (([u "**" ++ verdict r ++ u "**"] ++ reason_lines rt r)
         ++ build_lines rt r).
  { unfold build_lines, sub_object. rewrite Hbd. cbn zeta.
    destruct (py_bool (field bd (u "from"))) eqn:Ef; cbn [orb].
    - rewrite Ef, !py_get_dict. reflexivity.
    - destruct (py_bool (field bd (u "to"))).
      + rewrite !py_get_dict. reflexivity.
      + now rewrite app_nil_r. }
  (* expiry *)
  stage ((([u "**" ++ verdict r ++ u "**"] ++ reason_lines rt r)
          ++ build_lines rt r) ++ expiry_lines rt r).
  { unfold expiry_lines.
    destruct (py_bool (field r (u "expires_on"))) eqn:E;
      [|now rewrite app_nil_r].
    rewrite (py_getitem_present rt _ _ _ (truthy_present _ _ E)).
    destruct (field r (u "days_to_expiry")) eqn:Ed; cbn [rbind];
      try reflexivity;
      (rewrite (py_getitem_present rt r (u "days_to_expiry")
                  (field r (u "days_to_expiry")))
         by (apply not_none_present; rewrite Ed; discriminate));
      rewrite Ed; reflexivity. }
  (* flag and model report *)
  rewrite py_get_dict. cbn [rbind]. fold (field mr (u "has_report")).
  stage (((([u "**" ++ verdict r ++ u "**"] ++ reason_lines rt r)
           ++ build_lines rt r) ++ expiry_lines rt r)
         ++ flag_lines r ++ [report_line rt r]).
  { unfold report_line, flag_lines, sub_object. rewrite Hmr. cbn zeta.
    assert (Hflag : forall parts : list str,
      (if py_bool (field r (u "expiring_soon"))
       then parts ++ [u "Flag: expiring soon. Start compliance steps ASAP."]
       else parts)
      = parts ++
        (if py_bool (field r (u "expiring_soon"))
         then [u "Flag: expiring soon. Start compliance steps ASAP."]
         else [])).
    { intros parts. destruct (py_bool (field r (u "expiring_soon")));
        [reflexivity|now rewrite app_nil_r]. }
    rewrite Hflag, <- !app_assoc.
    destruct (py_bool (field mr (u "has_report"))); [|reflexivity].
    rewrite !py_get_dict. cbn [rbind].
    fold (field mr (u "mr_number")) (field mr (u "issuer")).
    destruct (py_bool (field mr (u "mr_number"))) eqn:En;
      [rewrite (py_getitem_present rt _ _ _ (truthy_present _ _ En))|];
      cbn [rbind];
      (destruct (py_bool (field mr (u "issuer"))) eqn:Ei;
       [rewrite (py_getitem_present rt _ _ _ (truthy_present _ _ Ei))|]);
      cbn [rbind]; rewrite <- ?app_assoc, ?app_nil_l; reflexivity. }
  (* alternates *)
  stage (single_verdict_block rt r); [|reflexivity].
  unfold single_verdict_block, alternates_lines, alternates_of.
  rewrite <- !app_assoc.
  destruct (py_or (field r (u "alternates")) (JList [])) as [| | | | |l|] eqn:Ea;
    try discriminate.
  destruct l as [|a l]; [now rewrite !app_nil_r|].
  cbn [py_bool py_slice_to rbind py_iter].
  rewrite (mapM_format_alternate rt _ Halts). cbn [rbind].
  now rewrite <- !app_assoc.
Qed.

End SingleRow.

(** ** The replies of [compose_reply] *)

Section ComposerClaims.

Variable rt : Runtime.

Lemma lookup_truthy (d : dict) (k : str) :
  dict_lookup d k = Some (JBool true) -> py_bool (field d k) = true.
Proof. intros H. unfold field, get_or. now rewrite H. Qed.

Lemma lookup_get_or (d : dict) (k : str) (v w : json) :
  dict_lookup d k = Some v -> get_or d k w = v.
Proof. intros H. unfold get_or. now rewrite H. Qed.

(** C1 (as amended). An envelope with [ok] true and exactly one row that has
    [eligible] true and none of the optional fields (reason, build window,
    expiry, expiring-soon flag, model report, alternates) is answered with
    exactly two lines: the bold verdict and the fixed line saying that no
    valid model report is on record. *)
Theorem eligible_row_without_optional_fields (d r : dict) :
  dict_lookup d (u "ok") = Some (JBool true) ->
  dict_lookup d (u "data") = Some (JList [JDict r]) ->
  dict_lookup r (u "eligible") = Some (JBool true) ->
  missing r (u "eligibility_reason") ->
  missing r (u "build_date_match") ->
  missing r (u "expires_on") ->
  missing r (u "expiring_soon") ->
  missing r (u "model_report") ->
  missing r (u "alternates") ->
  compose_reply rt (JDict d) =
  Return (u "**Eligible**" ++ newline ++
          u "No valid model report on record; compliance not currently possible.").
Proof.
  intros Hok Hdata Hel Hreason Hbd Hexp Hsoon Hmr Halts.
  apply missing_field in Hreason, Hbd, Hexp, Hsoon, Hmr, Halts.
  rewrite (single_row_reply rt d r).
  - unfold single_verdict_block, verdict, reason_lines, build_lines,
      expiry_lines, flag_lines, report_line, alternates_lines, alternates_of,
      sub_object.
    rewrite (lookup_truthy _ _ Hel), Hreason, Hbd, Hexp, Hsoon, Hmr, Halts.
    reflexivity.
  - now apply lookup_truthy.
  - now apply lookup_get_or.
  - unfold well_formed_row. now rewrite Hbd, Hmr, Halts.
Qed.

(** C2 (as amended). Whenever [ok] is false the reply is the fixed sentence,
    whatever [data] and [alternates] hold; the sentence is spelled with the
    typographic apostrophe U+2019. *)
Theorem failed_envelope_reply (d : dict) :
  dict_lookup d (u "ok") = Some (JBool false) ->
  compose_reply rt (JDict d) =
  Return (u "I couldn’t retrieve SEVS data right now. Try again in a moment.").
Proof.
  intros Hok. unfold compose_reply. rewrite py_get_dict. cbn [rbind].
  now rewrite (lookup_get_or _ _ _ _ Hok).
Qed.

Lemma multi_match_reply (d : dict) (rows : list json) :
  dict_lookup d (u "ok") = Some (JBool true) ->
  dict_lookup d (u "data") = Some (JList rows) ->
  1 < List.length rows ->
  forallb well_formed_match (firstn 3 rows) = true ->
  compose_reply rt (JDict d) =
  Return (join newline
            ([u "I found multiple matches:"] ++
             map (match_bullet rt) (firstn 3 rows) ++
             [u "Tell me the specific variant or model code and I’ll confirm."])).
Proof.
  intros Hok Hdata Hlen Hwf.
  unfold compose_reply. rewrite py_get_dict. cbn [rbind].
  rewrite (lookup_get_or _ _ _ _ Hok). cbn [py_bool negb].
  rewrite py_get_dict. cbn [rbind]. rewrite (lookup_get_or _ _ _ _ Hdata).
  destruct rows as [|r1 rows]; [inversion Hlen|].
  cbn [py_bool negb py_len rbind].
  apply Nat.ltb_lt in Hlen. rewrite Hlen.
  cbn [py_slice_to rbind py_iter].
  rewrite (foldM_lines rt _ _ Hwf). cbn [rbind].
  now rewrite <- app_assoc.
Qed.

(** C4. With [ok] true and [k > 1] rows the reply is the header line, one
    bullet for each of the first [min k 3] rows, rendered as
    [make model variant model_code — Eligible|Not eligible], then
    [; expires ...] only when [expires_on] is present and [; MR status]
    with the status shown only when [has_report] holds and [none] otherwise,
    and the closing prompt. *)
Theorem multi_match_summary (d : dict) (rows : list json) :
  dict_lookup d (u "ok") = Some (JBool true) ->
  dict_lookup d (u "data") = Some (JList rows) ->
  1 < List.length rows ->
  forallb well_formed_match (firstn 3 rows) = true ->
  exists bullets : list str,
    compose_reply rt (JDict d) =
    Return (join newline
              ([u "I found multiple matches:"] ++ bullets ++
               [u "Tell me the specific variant or model code and I’ll confirm."]))
    /\ bullets = map (match_bullet rt) (firstn 3 rows)
    /\ List.length bullets = Nat.min (List.length rows) 3.
Proof.
  intros Hok Hdata Hlen Hwf.
  exists (map (match_bullet rt) (firstn 3 rows)).
  split; [|split; [reflexivity|]].
  - now apply multi_match_reply.
  - rewrite length_map, length_firstn. apply Nat.min_comm.
Qed.

(** C5 (as amended). With [ok] true and [data] empty the reply depends on the
    top-level [alternates] only: when it is empty or absent the reply is the
    fixed no-matching-entry sentence; when it is a non-empty list of objects
    the reply is the prefix, the first five alternates joined by a comma and
    a space, and the closing request, each alternate being
    [{variant} {model_code}] with surrounding whitespace stripped. *)
Theorem no_match_reply (d : dict) :
  dict_lookup d (u "ok") = Some (JBool true) ->
  get_or d (u "data") (JList []) = JList [] ->
  (py_bool (field d (u "alternates")) = false ->
   compose_reply rt (JDict d) =
   Return (u "No matching SEVS entry found. Share the variant or model code and build year/month and I’ll re-check."))
  /\
  (forall alts : list json,
     field d (u "alternates") = JList alts ->
     alts <> [] ->
     forallb is_dict alts = true ->
     compose_reply rt (JDict d) =
     Return (u "No exact match. Closest options: " ++
             join (u ", ") (map (alternate_text rt) (firstn 5 alts)) ++
             u ". Share the variant/model code and build year/month.")).
Proof.
  intros Hok Hdata.
  assert (Hstart :
    compose_reply rt (JDict d) =
    (a <- py_get (JDict d) (u "alternates") JNull ;;
     let alts := py_or a (JList []) in
     if py_bool alts then
       items <- py_iter alts ;;
       formatted <- mapM (format_alternate rt) items ;;
       let alt_str := join (u ", ") (firstn 5 formatted) in
       Return (u "No exact match. Closest options: " ++ alt_str ++
               u ". Share the variant/model code and build year/month.")
     else
       Return (u "No matching SEVS entry found. Share the variant or model code and build year/month and I’ll re-check."))).
  { unfold compose_reply. rewrite py_get_dict. cbn [rbind].
    rewrite (lookup_get_or _ _ _ _ Hok). cbn [py_bool negb].
    rewrite py_get_dict. cbn [rbind]. rewrite Hdata. reflexivity. }
  rewrite Hstart, py_get_dict. cbn [rbind]. fold (field d (u "alternates")).
  split.
  - intros Hfalse. unfold py_or. rewrite Hfalse. reflexivity.
  - intros alts Halts Hne Hdicts. rewrite Halts.
    destruct alts as [|a alts]; [congruence|].
    cbn [py_or py_bool py_iter rbind].
    rewrite (mapM_format_alternate rt _ Hdicts). cbn [rbind].
    now rewrite firstn_map.
Qed.

(** C8 (as amended). For an envelope with [ok] true and exactly one row with
    [eligible] false, no [expiring_soon] and [model_report.has_report] false,
    the reply contains [Not eligible] and the fixed no-model-report line, and
    the flag line is not emitted: the text [Flag: expiring soon] occurs in the
    reply only if it occurs in one of the lines that render the row's own
    field values (reason, build window, expiry, alternatives). *)
Theorem not_eligible_without_report (d r mr : dict) :
  dict_lookup d (u "ok") = Some (JBool true) ->
  dict_lookup d (u "data") = Some (JList [JDict r]) ->
  well_formed_row r = true ->
  dict_lookup r (u "eligible") = Some (JBool false) ->
  missing r (u "expiring_soon") ->
  dict_lookup r (u "model_report") = Some (JDict mr) ->
  dict_lookup mr (u "has_report") = Some (JBool false) ->
  exists reply : str,
    compose_reply rt (JDict d) = Return reply
    /\ contains (u "Not eligible") reply = true
    /\ contains
         (u "No valid model report on record; compliance not currently possible.")
         reply = true
    /\ (contains (u "Flag: expiring soon") reply = true ->
        exists line, In line (free_text_lines rt r) /\
                     contains (u "Flag: expiring soon") line = true).
Proof.
  intros Hok Hdata Hwf Hel Hsoon Hmr Hhas.
  exists (join newline (single_verdict_block rt r)).
  assert (Hv : verdict r = u "Not eligible").
  { unfold verdict, field. now rewrite (lookup_get_or _ _ _ _ Hel). }
  assert (Hf : flag_lines r = []).
  { unfold flag_lines. now rewrite (missing_field _ _ Hsoon). }
  assert (Hr : report_line rt r =
               u "No valid model report on record; compliance not currently possible.").
  { unfold report_line, sub_object, field at 2.
    rewrite (lookup_get_or _ _ _ _ Hmr).
    destruct mr as [|kv mr']; [discriminate|]. cbn [py_or py_bool].
    unfold field. now rewrite (lookup_get_or _ _ _ _ Hhas). }
  split; [|split; [|split]].
  - apply single_row_reply; [now apply lookup_truthy|now apply lookup_get_or|exact Hwf].
  - apply contains_join with (p := u "**" ++ verdict r ++ u "**").
    + unfold single_verdict_block. now left.
    + rewrite Hv. apply contains_middle.
  - apply contains_join with (p := report_line rt r).
    + unfold single_verdict_block. rewrite !in_app_iff. right. right. right.
      right. right. left. now left.
    + rewrite Hr. apply contains_here. reflexivity.
  - unfold single_verdict_block. rewrite Hv, Hf, Hr. cbn [app].
    intros Hc. apply contains_join_inv in Hc as [q [Hq Hc]]; [|reflexivity].
    apply in_inv in Hq as [Hq|Hq]; [subst q; discriminate|].
    unfold free_text_lines. exists q. split; [|exact Hc].
    rewrite !in_app_iff in *.
    destruct Hq as [Hq|[Hq|[Hq|Hq]]]; auto.
    apply in_inv in Hq as [Hq|Hq]; [subst q; discriminate|auto].
Qed.

(** C9. A reply to an envelope with [ok] true and exactly one row always has a
    model-report line: a line beginning [Model report: ] when
    [model_report.has_report] holds, and otherwise (also when the row has no
    [model_report] at all) the fixed no-model-report line. *)
Theorem model_report_line_always_present (d r : dict) :
  dict_lookup d (u "ok") = Some (JBool true) ->
  dict_lookup d (u "data") = Some (JList [JDict r]) ->
  well_formed_row r = true ->
  exists reply : str,
    compose_reply rt (JDict d) = Return reply
    /\ (if py_bool (field (sub_object r (u "model_report")) (u "has_report"))
        then has_line_starting (u "Model report: ") reply = true
        else has_line
               (u "No valid model report on record; compliance not currently possible.")
               reply = true)
    /\ (missing r (u "model_report") ->
        has_line
          (u "No valid model report on record; compliance not currently possible.")
          reply = true).
Proof.
  intros Hok Hdata Hwf.
  exists (join newline (single_verdict_block rt r)).
  assert (Hin : In (report_line rt r) (single_verdict_block rt r)).
  { unfold single_verdict_block. rewrite !in_app_iff. right. right. right.
    right. right. left. now left. }
  assert (Hcase :
    if py_bool (field (sub_object r (u "model_report")) (u "has_report"))
    then has_line_starting (u "Model report: ")
           (join newline (single_verdict_block rt r)) = true
    else has_line
           (u "No valid model report on record; compliance not currently possible.")
           (join newline (single_verdict_block rt r)) = true).
  { destruct (py_bool (field (sub_object r (u "model_report")) (u "has_report")))
      eqn:E.
    - apply has_line_starting_join with (part := report_line rt r);
        [reflexivity|exact Hin|].
      unfold report_line. rewrite E.
      apply starts_with_app.
    - apply has_line_join; [reflexivity|].
      unfold report_line in Hin. now rewrite E in Hin. }
  split; [|split].
  - apply single_row_reply; [now apply lookup_truthy|now apply lookup_get_or|exact Hwf].
  - exact Hcase.
  - intros Hmiss. unfold sub_object in Hcase.
    rewrite (missing_field _ _ Hmiss) in Hcase. exact Hcase.
Qed.

End ComposerClaims.

(** ** A row without [eligible] *)

(** compare two literal keys by evaluation *)
Ltac decide_keys :=
  repeat match goal with
         | |- context [str_eqb (u ?a) (u ?b)] =>
           let v := eval vm_compute in (str_eqb (u a) (u b)) in
           change (str_eqb (u a) (u b)) with v
         end;
  cbv iota.

Lemma get_or_set (d : dict) (k k' : str) (v w : json) :
  get_or (dict_set d k v) k' w = if str_eqb k k' then v else get_or d k' w.
Proof. unfold get_or. rewrite dict_lookup_set. now destruct (str_eqb k k'). Qed.

Lemma py_getitem_set (rt : Runtime) (d : dict) (k k' : str) (v : json) :
  py_getitem rt (JDict (dict_set d k v)) k' =
  if str_eqb k k' then Return v else py_getitem rt (JDict d) k'.
Proof. unfold py_getitem. rewrite dict_lookup_set. now destruct (str_eqb k k'). Qed.

Lemma join_head (sep x : str) (l : list str) :
  exists rest, join sep (x :: l) = x ++ rest.
Proof.
  destruct l as [|y l].
  - exists []. simpl. now rewrite app_nil_r.
  - now exists (sep ++ join sep (y :: l)).
Qed.

Lemma foldM_pointwise {A S : Type} (body : S -> A -> result S)
    (xs ys : list A) (acc : S) :
  Forall2 (fun x y => forall s, body s x = body s y) xs ys ->
  foldM body xs acc = foldM body ys acc.
Proof.
  intros H. revert acc. induction H as [|x y xs ys Hxy _ IH]; intros acc.
  - reflexivity.
  - simpl. rewrite Hxy. destruct (body acc y); simpl; [apply IH|reflexivity].
Qed.

Lemma Forall2_firstn_replace {A : Type} (R : A -> A -> Prop)
    (n : nat) (pre post : list A) (x y : A) :
  (forall a, R a a) -> R x y ->
  Forall2 R (firstn n (pre ++ x :: post)) (firstn n (pre ++ y :: post)).
Proof.
  intros Hrefl Hxy. revert n.
  induction pre as [|a pre IH]; intros [|n]; simpl; try constructor; auto.
  induction (firstn n post); constructor; auto.
Qed.

Section AbsentEligible.

Variable rt : Runtime.

Lemma multi_match_line_falsy_eligible (r : dict) :
  py_bool (field r (u "eligible")) = false ->
  multi_match_line rt (JDict r) =
  multi_match_line rt (JDict (dict_set r (u "eligible") (JBool false))).
Proof.
  intros H. unfold multi_match_line. rewrite !py_get_dict. cbn [rbind].
  rewrite !get_or_set, !py_getitem_set. decide_keys.
  fold (field r (u "eligible")). rewrite H. reflexivity.
Qed.

Lemma single_row_falsy_eligible (d d' r : dict) :
  py_bool (field r (u "eligible")) = false ->
  get_or d (u "ok") JNull = get_or d' (u "ok") JNull ->
  get_or d (u "data") (JList []) = JList [JDict r] ->
  get_or d' (u "data") (JList []) =
    JList [JDict (dict_set r (u "eligible") (JBool false))] ->
  compose_reply rt (JDict d) = compose_reply rt (JDict d').
Proof.
  intros H Hok Hd Hd'. unfold compose_reply.
  rewrite !(py_get_dict d), !(py_get_dict d'). cbn [rbind].
  rewrite <- Hok, Hd, Hd'.
  destruct (py_bool (get_or d (u "ok") JNull)); [|reflexivity].
  cbn [negb py_bool py_len List.length Nat.ltb Nat.leb rbind py_first].
  rewrite !py_get_dict. cbn [rbind].
  rewrite !get_or_set, !py_getitem_set. decide_keys.
  fold (field r (u "eligible")). rewrite H. reflexivity.
Qed.

(** C10. A row whose [eligible] is absent, null or any other falsy value is
    rendered as one whose [eligible] is [false], in the single-row and in the
    multi-match branch alike (the reply is the same after [eligible] is set
    to [false] in that row), and what it shows is [Not eligible]. *)
Theorem absent_eligible_is_not_eligible
    (d r : dict) (pre post : list json) :
  dict_lookup d (u "data") = Some (JList (pre ++ JDict r :: post)) ->
  py_bool (field r (u "eligible")) = false ->
  compose_reply rt (JDict d) =
  compose_reply rt
    (JDict (dict_set d (u "data")
              (JList (pre ++
                      JDict (dict_set r (u "eligible") (JBool false)) :: post))))
  /\ (dict_lookup d (u "ok") = Some (JBool true) ->
      pre = [] -> post = [] -> well_formed_row r = true ->
      exists rest : str,
        compose_reply rt (JDict d) = Return (u "**Not eligible**" ++ rest))
  /\ (dict_lookup d (u "ok") = Some (JBool true) ->
      1 < List.length (pre ++ JDict r :: post) ->
      List.length pre < 3 ->
      forallb well_formed_match (firstn 3 (pre ++ JDict r :: post)) = true ->
      exists (before after : list str) (a b : str),
        compose_reply rt (JDict d) =
        Return (join newline
                  ([u "I found multiple matches:"] ++ before ++
                   [a ++ u " — Not eligible" ++ b] ++ after ++
                   [u "Tell me the specific variant or model code and I’ll confirm."]))
        /\ List.length before = List.length pre).
Proof.
  intros Hdata Hfalsy.
  set (r' := dict_set r (u "eligible") (JBool false)).
  set (d' := dict_set d (u "data") (JList (pre ++ JDict r' :: post))).
  assert (Hv : verdict r = u "Not eligible").
  { unfold verdict. now rewrite Hfalsy. }
  split; [|split].
  - assert (Hok : get_or d (u "ok") JNull = get_or d' (u "ok") JNull).
    { unfold d'. rewrite get_or_set. now decide_keys. }
    assert (Hd : get_or d (u "data") (JList []) = JList (pre ++ JDict r :: post))
      by now apply lookup_get_or.
    assert (Hd' : get_or d' (u "data") (JList []) = JList (pre ++ JDict r' :: post)).
    { unfold d'. rewrite get_or_set. now rewrite str_eqb_refl. }
    destruct (Nat.ltb 1 (List.length (pre ++ JDict r :: post))) eqn:Elen.
    + unfold compose_reply.
      rewrite !(py_get_dict d), !(py_get_dict d'). cbn [rbind].
      rewrite <- Hok, Hd, Hd'.
      destruct (py_bool (get_or d (u "ok") JNull)); [|reflexivity].
      assert (Hne : forall x, py_bool (JList (pre ++ x :: post)) = true)
        by (intros x; now destruct pre).
      rewrite !Hne. cbn [negb py_len rbind].
      assert (Hl : List.length (pre ++ JDict r' :: post)
                   = List.length (pre ++ JDict r :: post))
        by (now rewrite !length_app).
      rewrite Hl, Elen. cbn [py_slice_to rbind py_iter].
      rewrite (foldM_pointwise _ (firstn 3 (pre ++ JDict r :: post))
                 (firstn 3 (pre ++ JDict r' :: post))); [reflexivity|].
      apply Forall2_firstn_replace; [reflexivity|].
      intros s. now rewrite (multi_match_line_falsy_eligible r Hfalsy).
    + assert (pre = [] /\ post = []) as [-> ->].
      { apply Nat.ltb_ge in Elen. rewrite length_app in Elen. simpl in Elen.
        destruct pre, post; simpl in Elen; try lia. now split. }
      now apply (single_row_falsy_eligible d d' r).
  - intros Hok -> -> Hwf.
    rewrite (single_row_reply rt d r);
      [|now apply lookup_truthy|now apply lookup_get_or|exact Hwf].
    unfold single_verdict_block. rewrite Hv. cbn [app].
    match goal with
    | |- context [join newline (?x :: ?l)] =>
      destruct (join_head newline x l) as [rest E]
    end.
    exists rest. f_equal. etransitivity; [exact E|reflexivity].
  - intros Hok Hlen Hpre Hwf.
    pose proof (multi_match_reply rt d _ Hok Hdata Hlen Hwf) as E.
    assert (Hfirst : firstn 3 (pre ++ JDict r :: post)
                     = pre ++ JDict r :: firstn (2 - List.length pre) post).
    { rewrite firstn_app, (firstn_all2 pre) by lia.
      destruct (3 - List.length pre) as [|m] eqn:Em; [lia|].
      cbn [firstn]. do 3 f_equal. lia. }
    rewrite Hfirst, map_app in E. cbn [map] in E.
    destruct (is_dict_inv (py_or (field r (u "model_report")) (JDict []))) as [mr Hmr].
    { rewrite Hfirst, forallb_app in Hwf. apply andb_true_iff in Hwf as [_ Hwf].
      cbn [forallb] in Hwf. now apply andb_true_iff in Hwf as [Hwf _]. }
    exists (map (match_bullet rt) pre),
           (map (match_bullet rt) (firstn (2 - List.length pre) post)),
           (u "• " ++ py_str rt (get_or r (u "make") (JStr (u ""))) ++ u " " ++
            py_str rt (get_or r (u "model") (JStr (u ""))) ++ u " " ++
            py_str rt (get_or r (u "variant") (JStr (u ""))) ++ u " " ++
            py_str rt (get_or r (u "model_code") (JStr (u "")))),
           ((if py_bool (field r (u "expires_on"))
             then u "; expires " ++ py_str rt (field r (u "expires_on"))
             else []) ++ u "; MR " ++ mr_status rt r).
    split; [|now rewrite length_map].
    rewrite E, <- app_assoc. cbn [app]. do 4 f_equal.
    unfold match_bullet. rewrite Hv.
    change (u " — Not eligible") with (u " — " ++ u "Not eligible").
    now rewrite <- !app_assoc.
Qed.

End AbsentEligible.

(** ** [verify] *)

Section VerifyClaims.

Variable rt : Runtime.
Variable cfg : Config.

Lemma ascii_digit_isdigit (c : char) :
  is_ascii_digit c = true -> Py_UNICODE_ISDIGIT rt c = true.
Proof.
  unfold is_ascii_digit, Py_UNICODE_ISDIGIT. intros H. rewrite H.
  apply andb_true_iff in H as [_ H]. apply N.leb_le in H.
  destruct (c <? 128)%N eqn:E; [reflexivity|]. apply N.ltb_ge in E. lia.
Qed.

Lemma ascii_digit_decimal (c : char) :
  is_ascii_digit c = true -> Py_UNICODE_TODECIMAL rt c = Some (c - 48)%N.
Proof.
  unfold is_ascii_digit, Py_UNICODE_TODECIMAL. intros H. rewrite H.
  apply andb_true_iff in H as [_ H]. apply N.leb_le in H.
  destruct (c <? 128)%N eqn:E; [reflexivity|]. apply N.ltb_ge in E. lia.
Qed.

Lemma fold_digits (s : str) (acc : Z) :
  forallb is_ascii_digit s = true ->
  fold_left (fun acc c =>
               match acc, Py_UNICODE_TODECIMAL rt c with
               | Some z, Some d => Some (z * 10 + Z.of_N d)%Z
               | _, _ => None
               end) s (Some acc)
  = Some (fold_left (fun acc c => (acc * 10 + Z.of_N (c - 48))%Z) s acc).
Proof.
  revert acc. induction s as [|c s IH]; intros acc H; simpl; [reflexivity|].
  simpl in H. apply andb_true_iff in H as [Hc Hs].
  rewrite (ascii_digit_decimal c Hc). now apply IH.
Qed.

Lemma int_of_ascii_digits (s : str) :
  forallb is_ascii_digit s = true ->
  within_conversion_limit rt s ->
  int_of_digits rt s = Return (decimal_value s).
Proof.
  intros Hs Hlim. unfold int_of_digits.
  assert (E : ((640 <? N.of_nat (List.length s)) && (0 <? int_max_str_digits rt)
               && (int_max_str_digits rt <? N.of_nat (List.length s)))%N = false).
  { destruct Hlim as [H|[H|H]].
    - rewrite H. cbn. now rewrite andb_false_r.
    - assert (E : (640 <? N.of_nat (List.length s))%N = false)
        by (apply N.ltb_ge; lia).
      now rewrite E.
    - assert (E : (int_max_str_digits rt <? N.of_nat (List.length s))%N = false)
        by (now apply N.ltb_ge).
      rewrite E. now rewrite andb_false_r. }
  rewrite E, (fold_digits s 0%Z Hs). reflexivity.
Qed.

Lemma opt_eqb_eq (a : option str) (b : str) : opt_eqb a b = true <-> a = Some b.
Proof.
  destruct a as [a|]; simpl; [|split; discriminate].
  rewrite str_eqb_eq. split; congruence.
Qed.

(** C6 (as amended). The response of the verification request:
    when [mode] is [subscribe] and the token matches, a challenge made of
    ASCII digits (short enough for the interpreter's conversion limit)
    is answered with the integer it denotes, a challenge that is not
    all-digits with the challenge itself, and a missing challenge with the
    empty string; in every other case (another [mode], or a token that does
    not match) the response is the string [forbidden]. In particular
    [mode=subscribe] with the right token and the challenge [12345] gives
    the integer 12345. *)
Theorem verify_responses (mode challenge token : option str) :
  (mode = Some (u "subscribe") -> token = Some (VERIFY_TOKEN cfg) ->
   (forall c : str,
      challenge = Some c -> c <> [] -> forallb is_ascii_digit c = true ->
      within_conversion_limit rt c ->
      verify rt cfg mode challenge token = Return (JInt (decimal_value c)))
   /\ (forall c : str,
         challenge = Some c -> isdigit rt c = false ->
         verify rt cfg mode challenge token = Return (JStr c))
   /\ (challenge = None ->
       verify rt cfg mode challenge token = Return (JStr (u ""))))
  /\ (mode <> Some (u "subscribe") \/ token <> Some (VERIFY_TOKEN cfg) ->
      verify rt cfg mode challenge token = Return (JStr (u "forbidden")))
  /\ verify rt cfg (Some (u "subscribe")) (Some (u "12345"))
       (Some (VERIFY_TOKEN cfg)) = Return (JInt 12345).
Proof.
  assert (Hint : forall c : str,
    c <> [] -> forallb is_ascii_digit c = true -> within_conversion_limit rt c ->
    verify rt cfg (Some (u "subscribe")) (Some c) (Some (VERIFY_TOKEN cfg))
    = Return (JInt (decimal_value c))).
  { intros c Hne Hd Hlim. unfold verify. cbn [opt_eqb].
    rewrite !str_eqb_refl. cbn [andb].
    rewrite (str_eqb_neq c [] Hne). cbn [negb andb].
    unfold isdigit. rewrite (str_eqb_neq c [] Hne). cbn [negb andb].
    assert (forallb (Py_UNICODE_ISDIGIT rt) c = true) as ->.
    { apply forallb_forall. intros x Hx. apply ascii_digit_isdigit.
      now apply (proj1 (forallb_forall _ _) Hd). }
    now rewrite (int_of_ascii_digits c Hd Hlim). }
  split; [|split].
  - intros -> ->. split; [|split].
    + intros c ->. apply Hint.
    + intros c -> Hnd. unfold verify. cbn [opt_eqb].
      rewrite !str_eqb_refl. cbn [andb]. rewrite Hnd.
      now rewrite andb_false_r.
    + intros ->. unfold verify. cbn [opt_eqb]. now rewrite !str_eqb_refl.
  - intros H. unfold verify.
    destruct (opt_eqb mode (u "subscribe")) eqn:Em; [|reflexivity].
    destruct (opt_eqb token (VERIFY_TOKEN cfg)) eqn:Et; [|reflexivity].
    apply opt_eqb_eq in Em, Et. destruct H; congruence.
  - apply Hint; [discriminate|reflexivity|]. right. left.
    apply Nat.leb_le. reflexivity.
Qed.

End VerifyClaims.

(** ** [inbound] *)

Section InboundClaims.

Variable rt : Runtime.
Variable cfg : Config.
Variable svc : Services.

Lemma locate_conventional (p : dict) (value : json) :
  conventional p value -> locate_value rt (JDict p) = Return value.
Proof.
  intros (e & c & entries & changes & He & Hodd & Hc & Hv).
  unfold locate_value.
  rewrite (py_getitem_present rt _ _ _ He). cbn [rbind py_first].
  unfold py_getitem at 1. rewrite Hodd. cbn [rbind].
  rewrite py_get_dict, (lookup_get_or _ _ _ _ He). cbn [rbind py_first].
  rewrite py_get_dict, (lookup_get_or _ _ _ _ Hc). cbn [rbind py_first].
  now rewrite py_get_dict, (lookup_get_or _ _ _ _ Hv).
Qed.

Lemma inbound_nothing (payload : json) :
  incoming_message rt payload = Return None ->
  inbound rt cfg svc payload = ([], Return ok_true).
Proof. intros H. unfold inbound. now rewrite H. Qed.

Lemma inbound_raises (payload : json) (e : exn) :
  incoming_message rt payload = Raise e ->
  inbound rt cfg svc payload = ([], Raise e).
Proof. intros H. unfold inbound. now rewrite H. Qed.

(** C3 (as amended). For a delivery whose body is a JSON object the handler
    makes no external call and answers [{"ok": true}] when [entry] is absent,
    when the first entry has no [changes], when the located [value] has no
    (or an empty) [messages], and when the first message has a [from] but no
    text. When the first message has no [from] the handler raises [KeyError]
    before any external call: nothing is sent and the exception reaches the
    framework. *)
Theorem inbound_without_message (p : dict) :
  (dict_lookup p (u "entry") = None ->
   inbound rt cfg svc (JDict p) = ([], Return ok_true))
  /\ (forall (e : dict) (entries : list json),
        dict_lookup p (u "entry") = Some (JList (JDict e :: entries)) ->
        dict_lookup e (u "changes[0]") = None ->
        dict_lookup e (u "changes") = None ->
        inbound rt cfg svc (JDict p) = ([], Return ok_true))
  /\ (forall v : dict,
        conventional p (JDict v) ->
        py_bool (get_or v (u "messages") (JList [])) = false ->
        inbound rt cfg svc (JDict p) = ([], Return ok_true))
  /\ (forall (v m : dict) (rest : list json) (sender : json),
        conventional p (JDict v) ->
        dict_lookup v (u "messages") = Some (JList (JDict m :: rest)) ->
        dict_lookup m (u "from") = Some sender ->
        dict_lookup m (u "text") = None ->
        dict_lookup m (u "interactive") = None ->
        inbound rt cfg svc (JDict p) = ([], Return ok_true))
  /\ (forall (v m : dict) (rest : list json),
        conventional p (JDict v) ->
        dict_lookup v (u "messages") = Some (JList (JDict m :: rest)) ->
        dict_lookup m (u "from") = None ->
        inbound rt cfg svc (JDict p) = ([], Raise (Exn KeyError (u "'from'")))).
Proof.
  split; [|split; [|split; [|split]]].
  - intros He. apply inbound_nothing. unfold incoming_message, locate_value.
    unfold py_getitem at 1. rewrite He. cbn [rbind].
    rewrite py_get_dict. unfold get_or at 1. rewrite He. reflexivity.
  - intros e entries He Hodd Hc. apply inbound_nothing.
    unfold incoming_message, locate_value.
    rewrite (py_getitem_present rt _ _ _ He). cbn [rbind py_first].
    unfold py_getitem at 1. rewrite Hodd. cbn [rbind].
    rewrite py_get_dict, (lookup_get_or _ _ _ _ He). cbn [rbind py_first].
    rewrite py_get_dict. unfold get_or at 1. rewrite Hc. reflexivity.
  - intros v Hv Hm. apply inbound_nothing. unfold incoming_message.
    rewrite (locate_conventional p _ Hv). cbn [rbind].
    rewrite py_get_dict. cbn [rbind]. now rewrite Hm.
  - intros v m rest sender Hv Hm Hfrom Htext Hint. apply inbound_nothing.
    unfold incoming_message.
    rewrite (locate_conventional p _ Hv). cbn [rbind].
    rewrite py_get_dict, (lookup_get_or _ _ _ _ Hm).
    cbn [rbind py_bool negb py_first].
    rewrite (py_getitem_present rt _ _ _ Hfrom). cbn [rbind].
    rewrite !py_get_dict. unfold get_or. rewrite Htext, Hint. reflexivity.
  - intros v m rest Hv Hm Hfrom. apply inbound_raises.
    unfold incoming_message.
    rewrite (locate_conventional p _ Hv). cbn [rbind].
    rewrite py_get_dict, (lookup_get_or _ _ _ _ Hm).
    cbn [rbind py_bool negb py_first].
    unfold py_getitem. rewrite Hfrom. reflexivity.
Qed.

Lemma call_sevs_request (args : json) :
  fst (call_sevs cfg svc args) = [backend_request cfg args].
Proof.
  unfold call_sevs, post, backend_request, bind, lift.
  destruct (requests_post svc _ _ _ _) as [r|e]; [|reflexivity].
  destruct (raise_for_status r); [|reflexivity].
  cbn. now destruct (body_json r).
Qed.

(** how [call_sevs] fails: the request raises (no connection, timeout), the
    status is 4xx or 5xx, or the body is not JSON *)
Lemma call_sevs_failures (args : json) (e : exn) :
  snd (call_sevs cfg svc args) = Raise e <->
  (let outcome :=
     requests_post svc (SUPABASE_URL cfg)
       [(u "Content-Type", u "application/json");
        (u "apikey", SUPABASE_KEY cfg);
        (u "Authorization", u "Bearer " ++ SUPABASE_KEY cfg)] args 30 in
   outcome = Raise e \/
   exists r, outcome = Return r /\
     ((400 <= status_code r < 600)%Z /\ http_error r = e \/
      ~ (400 <= status_code r < 600)%Z /\ body_json r = Raise e)).
Proof.
  unfold call_sevs, post, bind, lift. cbv zeta.
  destruct (requests_post svc _ _ _ _) as [r|e0]; cbn.
  - unfold raise_for_status.
    destruct ((400 <=? status_code r)%Z && (status_code r <? 600)%Z) eqn:E; cbn.
    + apply andb_true_iff in E as [E1 E2].
      apply Z.leb_le in E1. apply Z.ltb_lt in E2.
      split.
      * intros H. right. exists r. split; [reflexivity|]. left.
        split; [lia|congruence].
      * intros [H|[r' [Hr Hc]]]; [discriminate|]. injection Hr as <-.
        destruct Hc as [[_ H]|[H _]]; [now rewrite H|lia].
    + assert (Hn : ~ (400 <= status_code r < 600)%Z).
      { intros [H1 H2]. apply Z.leb_le in H1. apply Z.ltb_lt in H2.
        now rewrite H1, H2 in E. }
      destruct (body_json r) as [j|e1] eqn:Eb; cbn; split.
      * discriminate.
      * intros [H|[r' [Hr Hc]]]; [discriminate|]. injection Hr as <-.
        destruct Hc as [[H _]|[_ H]]; [contradiction|congruence].
      * intros H. right. exists r. split; [reflexivity|]. right.
        split; [exact Hn|congruence].
      * intros [H|[r' [Hr Hc]]]; [discriminate|]. injection Hr as <-.
        destruct Hc as [[H _]|[_ H]]; [contradiction|congruence].
  - split.
    + intros H. left. congruence.
    + intros [H|[r [Hr _]]]; [congruence|discriminate].
Qed.

(** C7 (as amended). Whenever the backend query fails, the handler has made
    exactly one backend request, and the reply it sends to the sender is
    the fixed apology (spelled with the typographic apostrophe U+2019)
    followed by the text of the error, not a composed result; the webhook
    still answers [{"ok": true}]. *)
Theorem backend_failure_reply
    (payload from_number text args : json) (chat : ChatCompletion)
    (message : Message) (others : list Message)
    (call : ToolCall) (calls : list ToolCall) (e : exn) :
  incoming_message rt payload = Return (Some (from_number, text)) ->
  chat_completions_create svc (chat_request text) = Return chat ->
  choices chat = message :: others ->
  tool_calls message = Some (call :: calls) ->
  json_loads rt (function_arguments call) = Return args ->
  snd (call_sevs cfg svc args) = Raise e ->
  exists log : list event,
    inbound rt cfg svc payload =
    ([ChatCreate (chat_request text);
      backend_request cfg args;
      send_request cfg from_number
        (u "I couldn’t reach the SEVS service. " ++ exn_text e)] ++ log,
     Return ok_true)
    /\ (log = [] \/ exists e', log = [Print (u "Send error: " ++ exn_text e')]).
Proof.
  intros Hin Hchat Hchoices Hcalls Hargs Hfail.
  pose proof (call_sevs_request args) as Hreq.
  destruct (call_sevs cfg svc args) as [t outcome] eqn:Ecall.
  cbn in Hreq, Hfail. subst t outcome.
  unfold inbound. rewrite Hin. cbn [lift bind].
  unfold respond. rewrite Hchat. cbn [bind lift]. rewrite Hchoices.
  cbn [bind lift]. rewrite Hcalls, Hargs. cbn [bind lift app].
  rewrite Ecall. cbn [bind try_except ret app].
  unfold send_whatsapp_text, post. fold (send_request cfg from_number
    (u "I couldn’t reach the SEVS service. " ++ exn_text e)).
  destruct (requests_post svc _ _ _ _) as [r|e'].
  - cbn [bind lift]. destruct (raise_for_status r) as [[]|e'].
    + exists []. split; [reflexivity|now left].
    + exists [Print (u "Send error: " ++ exn_text e')].
      split; [reflexivity|right; now exists e'].
  - exists [Print (u "Send error: " ++ exn_text e')].
    split; [reflexivity|right; now exists e'].
Qed.

End InboundClaims.

(** ** The claims on concrete inputs *)

(** C1, counterexample: scenario 1 of the specification is answered with two
    lines, not with the verdict alone. *)
Lemma eligible_reply_is_not_the_verdict_alone :
  compose_reply ascii_runtime (JDict hilux_envelope) <> Return (u "**Eligible**").
Proof. intros H. vm_compute in H. discriminate H. Qed.

Lemma eligible_row_without_optional_fields_witness :
  compose_reply ascii_runtime (JDict hilux_envelope) =
  Return (u "**Eligible**" ++ newline ++
          u "No valid model report on record; compliance not currently possible.").
Proof.
  apply (eligible_row_without_optional_fields ascii_runtime
           hilux_envelope hilux_row);
    try (vm_compute; reflexivity); try (left; vm_compute; reflexivity);
    right; vm_compute; reflexivity.
Defined.

(** C2, counterexample: the sentence returned for [ok] false is not the one
    spelled with the ASCII apostrophe. *)
Lemma failed_reply_is_not_ascii :
  compose_reply ascii_runtime (JDict failed_envelope) <>
  Return (u "I couldn't retrieve SEVS data right now. Try again in a moment.").
Proof. intros H. vm_compute in H. discriminate H. Qed.

Lemma failed_envelope_reply_witness :
  compose_reply ascii_runtime (JDict failed_envelope) =
  Return (u "I couldn’t retrieve SEVS data right now. Try again in a moment.").
Proof.
  apply (failed_envelope_reply ascii_runtime failed_envelope).
  vm_compute. reflexivity.
Defined.

Lemma multi_match_summary_witness :
  exists bullets : list str,
    compose_reply ascii_runtime (JDict five_rows_envelope) =
    Return (join newline
              ([u "I found multiple matches:"] ++ bullets ++
               [u "Tell me the specific variant or model code and I’ll confirm."]))
    /\ bullets = map (match_bullet ascii_runtime) (firstn 3 five_rows)
    /\ List.length bullets = Nat.min (List.length five_rows) 3.
Proof.
  apply (multi_match_summary ascii_runtime five_rows_envelope five_rows);
    try (vm_compute; reflexivity).
  apply Nat.ltb_lt. vm_compute. reflexivity.
Defined.

(** C5, counterexample: an alternate whose [model_code] is empty is listed
    as [SR5], not as [SR5 ] with the separating space. *)
Lemma alternate_is_stripped :
  compose_reply ascii_runtime (JDict bare_alternate_envelope) <>
  Return (u "No exact match. Closest options: " ++
          join (u ", ") [u "SR5" ++ u " " ++ u ""] ++
          u ". Share the variant/model code and build year/month.").
Proof. intros H. vm_compute in H. discriminate H. Qed.

Lemma no_match_reply_witness :
  compose_reply ascii_runtime (JDict bare_alternate_envelope) =
  Return (u "No exact match. Closest options: SR5. Share the variant/model code and build year/month.").
Proof.
  etransitivity.
  - assert (H : dict_lookup bare_alternate_envelope (u "ok") = Some (JBool true)
                /\ get_or bare_alternate_envelope (u "data") (JList []) = JList [])
      by (split; vm_compute; reflexivity).
    apply (proj2 (no_match_reply ascii_runtime bare_alternate_envelope
                    (proj1 H) (proj2 H))
             [JDict [(u "variant", JStr (u "SR5"));
                     (u "model_code", JStr (u ""))]]);
      first [ vm_compute; reflexivity | discriminate ].
  - vm_compute. reflexivity.
Defined.

(** C8, counterexample: a row without [expiring_soon] whose reason quotes the
    flag text gets a reply that contains [Flag: expiring soon]. *)
Lemma flag_text_from_reason :
  exists reply : str,
    compose_reply ascii_runtime (JDict flagged_reason_envelope) = Return reply
    /\ contains (u "Flag: expiring soon") reply = true.
Proof. eexists. split; vm_compute; reflexivity. Qed.

Lemma not_eligible_without_report_witness :
  exists reply : str,
    compose_reply ascii_runtime (JDict flagged_reason_envelope) = Return reply
    /\ contains (u "Not eligible") reply = true
    /\ contains
         (u "No valid model report on record; compliance not currently possible.")
         reply = true
    /\ (contains (u "Flag: expiring soon") reply = true ->
        exists line, In line (free_text_lines ascii_runtime flagged_reason_row) /\
                     contains (u "Flag: expiring soon") line = true).
Proof.
  apply (not_eligible_without_report ascii_runtime flagged_reason_envelope
           flagged_reason_row [(u "has_report", JBool false)]);
    try (vm_compute; reflexivity).
  left. vm_compute. reflexivity.
Defined.

Lemma model_report_line_always_present_witness :
  exists reply : str,
    compose_reply ascii_runtime (JDict hilux_envelope) = Return reply
    /\ has_line
         (u "No valid model report on record; compliance not currently possible.")
         reply = true.
Proof.
  destruct (model_report_line_always_present ascii_runtime
              hilux_envelope hilux_row)
    as [reply [E [_ H]]]; try (vm_compute; reflexivity).
  exists reply. split; [exact E|]. apply H. left. vm_compute. reflexivity.
Defined.

Lemma absent_eligible_is_not_eligible_witness :
  compose_reply ascii_runtime (JDict five_rows_envelope) =
  compose_reply ascii_runtime
    (JDict (dict_set five_rows_envelope (u "data")
              (JList (firstn 2 five_rows ++
                      JDict (dict_set
                               [(u "make", JStr (u "Toyota"));
                                (u "model", JStr (u "Hilux"));
                                (u "variant", JStr (u "Rogue"));
                                (u "model_code", JStr (u "GUN126R"))]
                               (u "eligible") (JBool false))
                      :: [JInt 4; JNull])))).
Proof.
  apply (absent_eligible_is_not_eligible ascii_runtime five_rows_envelope
           [(u "make", JStr (u "Toyota")); (u "model", JStr (u "Hilux"));
            (u "variant", JStr (u "Rogue")); (u "model_code", JStr (u "GUN126R"))]
           (firstn 2 five_rows) [JInt 4; JNull]); vm_compute; reflexivity.
Defined.

(** C6, counterexample: with the right token and an all-digits challenge but
    no [mode], the response is [forbidden], not the number. *)
Lemma verify_without_mode_is_forbidden :
  verify ascii_runtime demo_config None (Some (u "12345"))
    (Some (VERIFY_TOKEN demo_config))
  = Return (JStr (u "forbidden")).
Proof. vm_compute. reflexivity. Qed.

Lemma verify_responses_witness :
  verify ascii_runtime demo_config (Some (u "subscribe")) (Some (u "2024"))
    (Some (VERIFY_TOKEN demo_config))
  = Return (JInt 2024).
Proof.
  etransitivity.
  - apply (proj1 (proj1 (verify_responses ascii_runtime demo_config
                           (Some (u "subscribe")) (Some (u "2024"))
                           (Some (VERIFY_TOKEN demo_config)))
                    eq_refl eq_refl) (u "2024"));
      first [ vm_compute; reflexivity
            | vm_compute; discriminate
            | right; left; apply Nat.leb_le; vm_compute; reflexivity ].
  - vm_compute. reflexivity.
Defined.

(** C3, counterexample: a delivery whose first message has no [from] is not
    answered with [{"ok": true}]; the handler raises [KeyError]. *)
Lemma delivery_without_from_raises :
  inbound ascii_runtime demo_config backend_down (JDict delivery_without_from)
  = ([], Raise (Exn KeyError (u "'from'"))).
Proof. vm_compute. reflexivity. Qed.

Lemma inbound_without_message_witness :
  inbound ascii_runtime demo_config backend_down
    (JDict delivery_without_messages)
  = ([], Return ok_true).
Proof.
  apply (proj1 (proj2 (proj2 (inbound_without_message ascii_runtime demo_config
                                backend_down delivery_without_messages)))
           [(u "statuses", JList [])]).
  - exists [(u "changes", JList [JDict [(u "value", JDict [(u "statuses", JList [])])]])],
           [(u "value", JDict [(u "statuses", JList [])])], [], [].
    repeat split; vm_compute; reflexivity.
  - vm_compute. reflexivity.
Defined.

(** C7, counterexample: when the backend times out, the text sent to the
    sender is not the apology spelled with the ASCII apostrophe. *)
Lemma apology_is_not_ascii :
  fst (inbound ascii_runtime demo_config backend_down (JDict text_delivery))
  = [ChatCreate (chat_request question);
     backend_request demo_config (JDict []);
     send_request demo_config sender
       (u "I couldn’t reach the SEVS service. timed out")]
  /\ send_request demo_config sender
       (u "I couldn’t reach the SEVS service. timed out")
     <> send_request demo_config sender
          (u "I couldn't reach the SEVS service. " ++ exn_text timeout_error).
Proof.
  split; [vm_compute; reflexivity|]. intros H. vm_compute in H. discriminate H.
Qed.

Lemma backend_failure_reply_witness :
  exists log : list event,
    inbound ascii_runtime demo_config backend_down (JDict text_delivery) =
    ([ChatCreate (chat_request question);
      backend_request demo_config (JDict []);
      send_request demo_config sender
        (u "I couldn’t reach the SEVS service. " ++ exn_text timeout_error)]
     ++ log,
     Return ok_true)
    /\ (log = [] \/ exists e', log = [Print (u "Send error: " ++ exn_text e')]).
Proof.
  apply (backend_failure_reply ascii_runtime demo_config backend_down
           (JDict text_delivery) sender question (JDict [])
           {| choices := [lookup_message] |} lookup_message []
           lookup_call [] timeout_error); vm_compute; reflexivity.
Defined.

(** * Further properties of [compose_reply] *)

Lemma contains_refl (n : str) : contains n n = true.
Proof.
  apply contains_here. rewrite <- (app_nil_r n) at 2. apply starts_with_app.
Qed.

Lemma lstrip_head (s : str) :
  match lstrip s with
  | [] => True
  | c :: _ => Py_UNICODE_ISSPACE c = false
  end.
Proof.
  induction s as [|c s IH]; simpl; [exact I|].
  destruct (Py_UNICODE_ISSPACE c) eqn:E; [exact IH|exact E].
Qed.

Lemma lstrip_snoc (x : str) (c : char) :
  Py_UNICODE_ISSPACE c = false -> exists y, lstrip (x ++ [c]) = y ++ [c].
Proof.
  intros Hc. induction x as [|a x [y IH]]; simpl.
  - rewrite Hc. now exists [].
  - destruct (Py_UNICODE_ISSPACE a).
    + now exists y.
    + now exists (a :: x).
Qed.

Lemma strip_no_outer_space (s : str) : no_outer_space (strip s) = true.
Proof.
  unfold no_outer_space, strip, rstrip.
  rewrite rev_involutive.
  pose proof (lstrip_head (rev (lstrip s))) as Hlast.
  apply andb_true_iff. split.
  - pose proof (lstrip_head s) as Hfirst.
    destruct (lstrip s) as [|c t]; [reflexivity|].
    simpl rev. destruct (lstrip_snoc (rev t) c Hfirst) as [y ->].
    rewrite rev_app_distr. simpl. now rewrite Hfirst.
  - destruct (lstrip (rev (lstrip s))); [reflexivity|]. now rewrite Hlast.
Qed.

Lemma mapM_format_alternate_raises (rt : Runtime) (l : list json) :
  forallb is_dict l = false ->
  exists e, mapM (format_alternate rt) l = Raise e /\ exn_cls e = AttributeError.
Proof.
  induction l as [|a l IH]; simpl; [discriminate|].
  intros H. destruct a as [| | | | | |d];
    try (eexists; split; reflexivity).
  simpl in H. destruct (IH H) as [e [E He]].
  unfold format_alternate at 1. rewrite !py_get_dict. cbn [rbind].
  rewrite E. now exists e.
Qed.

Section ComposerEdges.

Variable rt : Runtime.

(** X1. An envelope whose [ok] is absent, null or any other falsy value is
    answered like [ok] false: with the fixed retrieval-failure sentence,
    whatever else the envelope holds. *)
Theorem falsy_ok_is_failure (d : dict) :
  py_bool (field d (u "ok")) = false ->
  compose_reply rt (JDict d) =
  Return (u "I couldn’t retrieve SEVS data right now. Try again in a moment.").
Proof.
  intros H. unfold compose_reply. rewrite py_get_dict. cbn [rbind].
  fold (field d (u "ok")). now rewrite H.
Qed.

(** X2. The single-row reply is, line by line and in this order: the bold
    verdict, the reason, the build window, the expiry, the expiring-soon
    flag, the model-report line and the closest alternatives, each optional
    line present exactly when its field is. *)
Theorem single_row_line_order (d r : dict) :
  dict_lookup d (u "ok") = Some (JBool true) ->
  dict_lookup d (u "data") = Some (JList [JDict r]) ->
  well_formed_row r = true ->
  compose_reply rt (JDict d) =
  Return (join newline
            ([u "**" ++ verdict r ++ u "**"] ++ reason_lines rt r ++
             build_lines rt r ++ expiry_lines rt r ++ flag_lines r ++
             [report_line rt r] ++ alternates_lines rt r)).
Proof.
  intros Hok Hdata Hwf.
  apply single_row_reply;
    [now apply lookup_truthy|now apply lookup_get_or|exact Hwf].
Qed.

(** X3. When [expires_on] is present the expiry line carries the number of
    days whenever [days_to_expiry] is not null: a count of zero is shown as
    [(0 days)], not dropped. *)
Theorem expiry_line_shows_days (d r : dict) :
  dict_lookup d (u "ok") = Some (JBool true) ->
  dict_lookup d (u "data") = Some (JList [JDict r]) ->
  well_formed_row r = true ->
  py_bool (field r (u "expires_on")) = true ->
  exists reply : str,
    compose_reply rt (JDict d) = Return reply
    /\ contains
         (u "SEVS entry expires " ++ py_str rt (field r (u "expires_on")) ++
          match field r (u "days_to_expiry") with
          | JNull => []
          | v => u " (" ++ py_str rt v ++ u " days)"
          end ++ u ".") reply = true
    /\ (field r (u "days_to_expiry") = JInt 0 ->
        contains (u " (0 days).") reply = true).
Proof.
  intros Hok Hdata Hwf Hexp.
  exists (join newline (single_verdict_block rt r)).
  assert (Hin : In (u "SEVS entry expires " ++ py_str rt (field r (u "expires_on")) ++
                    match field r (u "days_to_expiry") with
                    | JNull => []
                    | v => u " (" ++ py_str rt v ++ u " days)"
                    end ++ u ".")
                   (single_verdict_block rt r)).
  { unfold single_verdict_block, expiry_lines. rewrite Hexp.
    rewrite !in_app_iff. right. right. right. left. now left. }
  split; [|split].
  - apply single_row_reply;
      [now apply lookup_truthy|now apply lookup_get_or|exact Hwf].
  - eapply contains_join; [exact Hin|apply contains_refl].
  - intros Hzero. rewrite Hzero in Hin.
    eapply contains_join; [exact Hin|].
    apply contains_app_r, contains_app_r, contains_here. reflexivity.
Qed.

(** X4. In the build-window line a bound whose key is absent is printed as
    [?], while a bound that is present but null is printed as [None]. *)
Theorem build_window_bounds (d r bd : dict) :
  dict_lookup d (u "ok") = Some (JBool true) ->
  dict_lookup d (u "data") = Some (JList [JDict r]) ->
  well_formed_row r = true ->
  dict_lookup r (u "build_date_match") = Some (JDict bd) ->
  py_bool (field bd (u "from")) = true ->
  exists reply : str,
    compose_reply rt (JDict d) = Return reply
    /\ (dict_lookup bd (u "to") = None ->
        contains (u "Build window: " ++ py_str rt (field bd (u "from")) ++
                  u " → ?.") reply = true)
    /\ (dict_lookup bd (u "to") = Some JNull ->
        contains (u "Build window: " ++ py_str rt (field bd (u "from")) ++
                  u " → None.") reply = true).
Proof.
  intros Hok Hdata Hwf Hbd Hfrom.
  exists (join newline (single_verdict_block rt r)).
  assert (Hsub : sub_object r (u "build_date_match") = bd).
  { unfold sub_object, field. rewrite (lookup_get_or _ _ _ _ Hbd).
    unfold py_or. destruct bd; [discriminate|reflexivity]. }
  assert (Hin : forall t : json,
            get_or bd (u "to") (JStr (u "?")) = t ->
            In (u "Build window: " ++ py_str rt (field bd (u "from")) ++
                u " → " ++ py_str rt t ++ u ".")
               (single_verdict_block rt r)).
  { intros t Ht. unfold single_verdict_block, build_lines.
    rewrite Hsub. cbv zeta. rewrite Hfrom. cbn [orb].
    rewrite (get_or_present bd (u "from") _ Hfrom), Ht.
    rewrite !in_app_iff. right. right. left. now left. }
  split; [|split].
  - apply single_row_reply;
      [now apply lookup_truthy|now apply lookup_get_or|exact Hwf].
  - intros Hto. eapply contains_join.
    + apply (Hin (JStr (u "?"))). unfold get_or. now rewrite Hto.
    + apply contains_refl.
  - intros Hto. eapply contains_join.
    + apply (Hin JNull). unfold get_or. now rewrite Hto.
    + apply contains_refl.
Qed.

End ComposerEdges.

Section ComposerBounds.

Variable rt : Runtime.

(** X5. The multi-match reply depends on the first three rows only: rows
    after the third are never read, so they may be anything. *)
Theorem multi_match_ignores_later_rows (d : dict) (rows rows' : list json) :
  dict_lookup d (u "data") = Some (JList rows) ->
  1 < List.length rows ->
  1 < List.length rows' ->
  firstn 3 rows = firstn 3 rows' ->
  compose_reply rt (JDict d) =
  compose_reply rt (JDict (dict_set d (u "data") (JList rows'))).
Proof.
  intros Hdata Hlen Hlen' Hfirst.
  unfold compose_reply. rewrite !py_get_dict. cbn [rbind].
  rewrite !get_or_set. decide_keys.
  rewrite (lookup_get_or _ _ _ _ Hdata).
  destruct (py_bool (get_or d (u "ok") JNull)); [|reflexivity].
  destruct rows as [|r1 rows]; [inversion Hlen|].
  destruct rows' as [|r1' rows']; [inversion Hlen'|].
  cbn [negb py_bool py_len rbind].
  apply Nat.ltb_lt in Hlen, Hlen'. rewrite Hlen, Hlen'.
  cbn [py_slice_to rbind]. now rewrite Hfirst.
Qed.

(** X6. The top-level [alternates] are read only when [data] is empty: with
    a non-empty [data] the reply is the same whatever [alternates] holds. *)
Theorem top_level_alternates_unused (d : dict) (x : json) :
  py_bool (get_or d (u "data") (JList [])) = true ->
  compose_reply rt (JDict (dict_set d (u "alternates") x)) =
  compose_reply rt (JDict d).
Proof.
  intros Hdata. unfold compose_reply. rewrite !py_get_dict. cbn [rbind].
  rewrite !get_or_set. decide_keys.
  destruct (py_bool (get_or d (u "ok") JNull)); [|reflexivity].
  cbn [negb]. now rewrite Hdata.
Qed.

(** X7. With [data] empty, every top-level alternate is formatted before the
    list is cut to five: one alternate that is not an object, even beyond
    the fifth, makes [compose_reply] raise [AttributeError]. *)
Theorem malformed_top_level_alternate (d : dict) (alts : list json) :
  dict_lookup d (u "ok") = Some (JBool true) ->
  get_or d (u "data") (JList []) = JList [] ->
  dict_lookup d (u "alternates") = Some (JList alts) ->
  forallb is_dict alts = false ->
  exists e : exn,
    compose_reply rt (JDict d) = Raise e /\ exn_cls e = AttributeError.
Proof.
  intros Hok Hdata Halts Hbad.
  destruct (mapM_format_alternate_raises rt alts Hbad) as [e [E He]].
  exists e. split; [|exact He].
  unfold compose_reply. rewrite py_get_dict. cbn [rbind].
  rewrite (lookup_get_or _ _ _ _ Hok). cbn [py_bool negb].
  rewrite py_get_dict. cbn [rbind]. rewrite Hdata. cbn [py_bool negb].
  rewrite py_get_dict. cbn [rbind]. rewrite (lookup_get_or _ _ _ _ Halts).
  destruct alts as [|a alts]; [discriminate|].
  cbn [py_or py_bool py_iter rbind]. now rewrite E.
Qed.

(** X8. The alternates of a row are cut to three before they are formatted:
    what follows the third alternate is never read and does not change the
    reply. *)
Theorem row_alternates_beyond_third_unused (d r : dict) (l l' : list json) :
  dict_lookup d (u "data") = Some (JList [JDict r]) ->
  dict_lookup r (u "alternates") = Some (JList l) ->
  l <> [] -> l' <> [] ->
  firstn 3 l = firstn 3 l' ->
  compose_reply rt (JDict d) =
  compose_reply rt
    (JDict (dict_set d (u "data")
              (JList [JDict (dict_set r (u "alternates") (JList l'))]))).
Proof.
  intros Hdata Halts Hl Hl' Hfirst.
  unfold compose_reply. rewrite !py_get_dict. cbn [rbind].
  rewrite !get_or_set. decide_keys.
  rewrite (lookup_get_or _ _ _ _ Hdata).
  destruct (py_bool (get_or d (u "ok") JNull)); [|reflexivity].
  cbn [negb py_bool py_len List.length Nat.ltb Nat.leb rbind py_first].
  rewrite !py_get_dict. cbn [rbind].
  rewrite !get_or_set, !py_getitem_set. decide_keys.
  rewrite (lookup_get_or r (u "alternates") (JList l) JNull Halts).
  destruct l as [|a l]; [congruence|]. destruct l' as [|a' l']; [congruence|].
  cbn [py_or py_bool py_slice_to]. now rewrite Hfirst.
Qed.

(** X9. An alternate is listed without leading or trailing whitespace; one
    that has neither [variant] nor [model_code] is listed as [?]. *)
Theorem alternate_text_is_stripped (a : dict) :
  exists t : str,
    format_alternate rt (JDict a) = Return t
    /\ no_outer_space t = true
    /\ (dict_lookup a (u "variant") = None ->
        dict_lookup a (u "model_code") = None -> t = u "?").
Proof.
  unfold format_alternate. rewrite !py_get_dict. cbn [rbind].
  eexists. split; [reflexivity|]. split.
  - apply strip_no_outer_space.
  - intros Hv Hc. unfold get_or. now rewrite Hv, Hc.
Qed.

(** X10. A model report that has [has_report] but no [status] is shown as
    [Model report: unknown.] in the single-row reply, whereas a multi-match
    bullet shows it as [MR none], the same as a row without any report. *)
Theorem report_without_status (d r mr : dict) :
  dict_lookup r (u "model_report") = Some (JDict mr) ->
  py_bool (field mr (u "has_report")) = true ->
  dict_lookup mr (u "status") = None ->
  (dict_lookup d (u "ok") = Some (JBool true) ->
   dict_lookup d (u "data") = Some (JList [JDict r]) ->
   well_formed_row r = true ->
   py_bool (field mr (u "mr_number")) = false ->
   py_bool (field mr (u "issuer")) = false ->
   exists reply : str,
     compose_reply rt (JDict d) = Return reply
     /\ has_line (u "Model report: unknown.") reply = true)
  /\ (exists bullet : str,
        multi_match_line rt (JDict r) = Return (bullet ++ u "; MR none")).
Proof.
  intros Hmr Hhas Hstatus.
  assert (Hsub : sub_object r (u "model_report") = mr).
  { unfold sub_object, field. rewrite (lookup_get_or _ _ _ _ Hmr).
    unfold py_or. destruct mr; [discriminate|reflexivity]. }
  split.
  - intros Hok Hdata Hwf Hnum Hiss.
    exists (join newline (single_verdict_block rt r)). split.
    + apply single_row_reply;
        [now apply lookup_truthy|now apply lookup_get_or|exact Hwf].
    + apply has_line_join; [reflexivity|].
      unfold single_verdict_block. rewrite !in_app_iff.
      right. right. right. right. right. left. left.
      unfold report_line. rewrite Hsub. cbv zeta.
      rewrite Hhas, Hnum, Hiss. unfold get_or. rewrite Hstatus. reflexivity.
  - assert (Hwf : well_formed_match (JDict r) = true).
    { cbn [well_formed_match]. unfold field.
      rewrite (lookup_get_or _ _ _ _ Hmr). unfold py_or.
      now destruct (py_bool (JDict mr)). }
    rewrite (multi_match_line_bullet rt _ Hwf).
    unfold match_bullet, mr_status. rewrite Hsub. cbv zeta. rewrite Hhas.
    unfold get_or at 5. rewrite Hstatus.
    eexists. rewrite !app_assoc. rewrite <- app_assoc. reflexivity.
Qed.

End ComposerBounds.

(** * Further properties of [verify] and of the two HTTP calls *)

Section VerifyEdges.

Variable rt : Runtime.
Variable cfg : Config.

Lemma fold_decimal_none (s : str) :
  fold_left (fun acc c =>
               match acc, Py_UNICODE_TODECIMAL rt c with
               | Some z, Some d => Some (z * 10 + Z.of_N d)%Z
               | _, _ => None
               end) s None = None.
Proof. induction s as [|c s IH]; simpl; [reflexivity|exact IH]. Qed.

Lemma fold_decimal_missing (s : str) (x : char) (acc : option Z) :
  In x s -> Py_UNICODE_TODECIMAL rt x = None ->
  fold_left (fun acc c =>
               match acc, Py_UNICODE_TODECIMAL rt c with
               | Some z, Some d => Some (z * 10 + Z.of_N d)%Z
               | _, _ => None
               end) s acc = None.
Proof.
  revert acc. induction s as [|c s IH]; intros acc Hin Hx; [destruct Hin|].
  simpl. destruct Hin as [->|Hin].
  - rewrite Hx. destruct acc; apply fold_decimal_none.
  - now apply IH.
Qed.

Lemma fold_decimal_all (s : str) (acc : Z) :
  (forall x, In x s -> Py_UNICODE_TODECIMAL rt x <> None) ->
  fold_left (fun acc c =>
               match acc, Py_UNICODE_TODECIMAL rt c with
               | Some z, Some d => Some (z * 10 + Z.of_N d)%Z
               | _, _ => None
               end) s (Some acc)
  = Some (fold_left (fun acc c =>
               (acc * 10 +
                Z.of_N (match Py_UNICODE_TODECIMAL rt c with
                        | Some d => d
                        | None => 0
                        end))%Z) s acc).
Proof.
  revert acc. induction s as [|c s IH]; intros acc H; simpl; [reflexivity|].
  destruct (Py_UNICODE_TODECIMAL rt c) as [dc|] eqn:E.
  - apply IH. intros x Hx. apply H. now right.
  - exfalso. apply (H c); [now left|exact E].
Qed.

Lemma verify_digits (c : str) :
  isdigit rt c = true ->
  verify rt cfg (Some (u "subscribe")) (Some c) (Some (VERIFY_TOKEN cfg)) =
  (z <- int_of_digits rt c ;; Return (JInt z)).
Proof.
  intros Hd. unfold verify. cbn [opt_eqb]. rewrite !str_eqb_refl. cbn [andb].
  rewrite Hd.
  assert (Hne : str_eqb c [] = false).
  { unfold isdigit in Hd. destruct (str_eqb c []); [discriminate|reflexivity]. }
  now rewrite Hne.
Qed.

(** X11. A challenge that passes [isdigit] but contains a digit character
    without a decimal value (such as a superscript digit) is not answered:
    the conversion to an integer raises [ValueError]. *)
Theorem verify_digit_without_decimal (c : str) (x : char) :
  isdigit rt c = true ->
  In x c ->
  Py_UNICODE_TODECIMAL rt x = None ->
  exists e : exn,
    verify rt cfg (Some (u "subscribe")) (Some c) (Some (VERIFY_TOKEN cfg))
    = Raise e /\ exn_cls e = ValueError.
Proof.
  intros Hd Hin Hx. rewrite (verify_digits c Hd). unfold int_of_digits.
  destruct ((640 <? N.of_nat (List.length c)) && (0 <? int_max_str_digits rt)
            && (int_max_str_digits rt <? N.of_nat (List.length c)))%N.
  - eexists. split; reflexivity.
  - rewrite (fold_decimal_missing c x _ Hin Hx). eexists. split; reflexivity.
Qed.

(** X12. A challenge made of decimal digits of any script, short enough for
    the conversion limit, is answered with the integer it denotes. *)
Theorem verify_decimal_digits (c : str) :
  isdigit rt c = true ->
  (forall x, In x c -> Py_UNICODE_TODECIMAL rt x <> None) ->
  within_conversion_limit rt c ->
  verify rt cfg (Some (u "subscribe")) (Some c) (Some (VERIFY_TOKEN cfg))
  = Return (JInt (digits_value rt c)).
Proof.
  intros Hd Hall Hlim. rewrite (verify_digits c Hd). unfold int_of_digits.
  assert (E : ((640 <? N.of_nat (List.length c)) && (0 <? int_max_str_digits rt)
               && (int_max_str_digits rt <? N.of_nat (List.length c)))%N = false).
  { destruct Hlim as [H|[H|H]].
    - rewrite H. cbn. now rewrite andb_false_r.
    - assert (E : (640 <? N.of_nat (List.length c))%N = false)
        by (apply N.ltb_ge; lia).
      now rewrite E.
    - assert (E : (int_max_str_digits rt <? N.of_nat (List.length c))%N = false)
        by (now apply N.ltb_ge).
      rewrite E. now rewrite andb_false_r. }
  rewrite E, (fold_decimal_all c 0%Z Hall). reflexivity.
Qed.


End VerifyEdges.

Section HttpCalls.

Variable cfg : Config.
Variable svc : Services.

Lemma status_raises (r : Response) :
  raise_for_status r = Return tt <-> ~ (400 <= status_code r < 600)%Z.
Proof.
  unfold raise_for_status.
  destruct ((400 <=? status_code r)%Z && (status_code r <? 600)%Z) eqn:E.
  - apply andb_true_iff in E as [E1 E2].
    apply Z.leb_le in E1. apply Z.ltb_lt in E2. split; [discriminate|lia].
  - split; [|reflexivity]. intros _ [H1 H2].
    apply Z.leb_le in H1. apply Z.ltb_lt in H2. now rewrite H1, H2 in E.
Qed.

(** X14. [call_sevs] makes one request and returns the decoded body exactly
    when the request returns a response whose status is not 4xx or 5xx and
    whose body decodes: a status outside 2xx, such as a redirect, is not by
    itself an error. *)
Theorem call_sevs_returns (args data : json) :
  fst (call_sevs cfg svc args) = [backend_request cfg args]
  /\ (snd (call_sevs cfg svc args) = Return data <->
      exists r : Response,
        requests_post svc (SUPABASE_URL cfg)
          [(u "Content-Type", u "application/json");
           (u "apikey", SUPABASE_KEY cfg);
           (u "Authorization", u "Bearer " ++ SUPABASE_KEY cfg)] args 30
        = Return r
        /\ ~ (400 <= status_code r < 600)%Z
        /\ body_json r = Return data).
Proof.
  split; [apply call_sevs_request|].
  unfold call_sevs, post, bind, lift. cbv zeta.
  destruct (requests_post svc _ _ _ _) as [r|e]; cbn.
  - destruct (raise_for_status r) as [[]|e] eqn:E; cbn.
    + apply status_raises in E.
      destruct (body_json r) as [j|e] eqn:Eb; cbn; split.
      * intros H. exists r. repeat split; [exact E|congruence].
      * intros [r' [Hr [_ Hb]]]. injection Hr as <-. congruence.
      * discriminate.
      * intros [r' [Hr [_ Hb]]]. injection Hr as <-. congruence.
    + split; [discriminate|].
      intros [r' [Hr [Hs _]]]. injection Hr as <-.
      apply status_raises in Hs. congruence.
  - split; [discriminate|]. intros [r [Hr _]]. discriminate.
Qed.

(** X15. [send_whatsapp_text] makes one request and succeeds exactly when
    the request returns a response whose status is not 4xx or 5xx; the body
    of the response is never read. *)
Theorem send_whatsapp_text_succeeds (to_number : json) (text : str) :
  fst (send_whatsapp_text cfg svc to_number text)
  = [send_request cfg to_number text]
  /\ (snd (send_whatsapp_text cfg svc to_number text) = Return tt <->
      exists r : Response,
        requests_post svc (u "https://graph.facebook.com/v20.0/me/messages")
          [(u "Authorization", u "Bearer " ++ WHATSAPP_TOKEN cfg);
           (u "Content-Type", u "application/json")]
          (JDict [(u "messaging_product", JStr (u "whatsapp"));
                  (u "to", to_number);
                  (u "type", JStr (u "text"));
                  (u "text", JDict [(u "preview_url", JBool false);
                                    (u "body", JStr text)])]) 30
        = Return r
        /\ ~ (400 <= status_code r < 600)%Z).
Proof.
  unfold send_whatsapp_text, post, bind, lift, send_request. cbv zeta.
  destruct (requests_post svc _ _ _ _) as [r|e]; cbn.
  - destruct (raise_for_status r) as [[]|e] eqn:E; cbn.
    + split; [reflexivity|]. apply status_raises in E. split.
      * intros _. now exists r.
      * reflexivity.
    + split; [reflexivity|]. split; [discriminate|].
      intros [r' [Hr Hs]]. injection Hr as <-.
      apply status_raises in Hs. congruence.
  - split; [reflexivity|]. split; [discriminate|].
    intros [r [Hr _]]. discriminate.
Qed.

End HttpCalls.

(** * Further properties of [inbound] *)

Section InboundEdges.

Variable rt : Runtime.
Variable cfg : Config.
Variable svc : Services.

Lemma send_attempt (to_number : json) (text : str) :
  try_except (send_whatsapp_text cfg svc to_number text)
    (fun e => print (u "Send error: " ++ exn_text e))
  = (send_request cfg to_number text :: send_log cfg svc to_number text,
     Return tt).
Proof.
  unfold send_log, send_whatsapp_text, post, bind, lift, send_request, print.
  cbv zeta.
  destruct (requests_post svc _ _ _ _) as [r|e]; cbn; [|reflexivity].
  destruct (raise_for_status r) as [[]|e]; reflexivity.
Qed.

(** X16. An [entry] list that is present but empty, or a [changes] list that
    is present but empty, is not treated as nothing to do: indexing its first
    element raises [IndexError], which leaves the handler. *)
Theorem empty_entry_or_changes_raises (p : dict) :
  (dict_lookup p (u "entry") = Some (JList []) ->
   inbound rt cfg svc (JDict p)
   = ([], Raise (Exn IndexError (u "list index out of range"))))
  /\ (forall (e : dict) (entries : list json),
        dict_lookup p (u "entry") = Some (JList (JDict e :: entries)) ->
        dict_lookup e (u "changes[0]") = None ->
        dict_lookup e (u "changes") = Some (JList []) ->
        inbound rt cfg svc (JDict p)
        = ([], Raise (Exn IndexError (u "list index out of range")))).
Proof.
  split.
  - intros He. apply inbound_raises. unfold incoming_message, locate_value.
    rewrite (py_getitem_present rt _ _ _ He). cbn [rbind py_first].
    now rewrite py_get_dict, (lookup_get_or _ _ _ _ He).
  - intros e entries He Hodd Hc. apply inbound_raises.
    unfold incoming_message, locate_value.
    rewrite (py_getitem_present rt _ _ _ He). cbn [rbind py_first].
    unfold py_getitem at 1. rewrite Hodd. cbn [rbind].
    rewrite py_get_dict, (lookup_get_or _ _ _ _ He). cbn [rbind py_first].
    now rewrite py_get_dict, (lookup_get_or _ _ _ _ Hc).
Qed.

(** X17. The first lookup of the handler is live: when the first entry has
    the literal key [changes[0]] holding an object with a [value], that value
    is used, whatever the entry's [changes] list holds. *)
Theorem literal_changes_key_is_used
    (p e c : dict) (entries : list json) (value : json) :
  dict_lookup p (u "entry") = Some (JList (JDict e :: entries)) ->
  dict_lookup e (u "changes[0]") = Some (JDict c) ->
  dict_lookup c (u "value") = Some value ->
  locate_value rt (JDict p) = Return value.
Proof.
  intros He Hodd Hv. unfold locate_value.
  rewrite (py_getitem_present rt _ _ _ He). cbn [rbind py_first].
  rewrite (py_getitem_present rt _ _ _ Hodd). cbn [rbind].
  now rewrite (py_getitem_present rt _ _ _ Hv).
Qed.

(** X18. A body that is well-formed JSON but not an object (a list, a
    string, a number, null) makes the handler raise [AttributeError] before
    any external call. *)
Theorem non_object_body_raises (payload : json) :
  is_dict payload = false ->
  exists e : exn,
    inbound rt cfg svc payload = ([], Raise e) /\ exn_cls e = AttributeError.
Proof.
  intros H. destruct payload; try discriminate;
    (eexists; split; [apply inbound_raises; reflexivity|reflexivity]).
Qed.

(** X19. The text of a message is its [text.body] when that is non-empty,
    whatever the message's [interactive] part holds; otherwise it is the
    [response_json] of [interactive.nfm_reply]. *)
Theorem message_text_source (p v m : dict) (rest : list json) (from_number : json) :
  conventional p (JDict v) ->
  dict_lookup v (u "messages") = Some (JList (JDict m :: rest)) ->
  dict_lookup m (u "from") = Some from_number ->
  (forall (t : dict),
     dict_lookup m (u "text") = Some (JDict t) ->
     py_bool (field t (u "body")) = true ->
     incoming_message rt (JDict p)
     = Return (Some (from_number, field t (u "body"))))
  /\ (forall (i n : dict),
        dict_lookup m (u "text") = None ->
        dict_lookup m (u "interactive") = Some (JDict i) ->
        dict_lookup i (u "nfm_reply") = Some (JDict n) ->
        py_bool (field n (u "response_json")) = true ->
        incoming_message rt (JDict p)
        = Return (Some (from_number, field n (u "response_json")))).
Proof.
  intros Hv Hm Hfrom.
  assert (Hstart : incoming_message rt (JDict p) =
    (t <- py_get (JDict m) (u "text") (JDict []) ;;
     body <- py_get t (u "body") JNull ;;
     text <- (if py_bool body then Return body
              else i <- py_get (JDict m) (u "interactive") (JDict []) ;;
                   r <- py_get i (u "nfm_reply") (JDict []) ;;
                   py_get r (u "response_json") JNull) ;;
     if negb (py_bool text) then Return None else
     Return (Some (from_number, text)))).
  { unfold incoming_message. rewrite (locate_conventional rt p _ Hv).
    cbn [rbind]. rewrite py_get_dict, (lookup_get_or _ _ _ _ Hm).
    cbn [rbind py_bool negb py_first].
    now rewrite (py_getitem_present rt _ _ _ Hfrom). }
  rewrite Hstart. split.
  - intros t Ht Hbody.
    rewrite py_get_dict, (lookup_get_or _ _ _ _ Ht). cbn [rbind].
    rewrite py_get_dict. cbn [rbind]. fold (field t (u "body")).
    rewrite Hbody. cbn [rbind]. now rewrite Hbody.
  - intros i n Ht Hi Hn Hresp.
    rewrite py_get_dict. unfold get_or at 1. rewrite Ht. cbn [rbind].
    rewrite py_get_dict. cbn [get_or dict_lookup rbind py_bool].
    rewrite py_get_dict, (lookup_get_or _ _ _ _ Hi). cbn [rbind].
    rewrite py_get_dict, (lookup_get_or _ _ _ _ Hn). cbn [rbind].
    rewrite py_get_dict. cbn [rbind]. fold (field n (u "response_json")).
    now rewrite Hresp.
Qed.

(** X20. Only the first message of a delivery is read: two deliveries whose
    message lists start with the same message are handled alike. *)
Theorem only_first_message_is_read
    (p p' v v' : dict) (m : json) (rest rest' : list json) :
  conventional p (JDict v) ->
  conventional p' (JDict v') ->
  dict_lookup v (u "messages") = Some (JList (m :: rest)) ->
  dict_lookup v' (u "messages") = Some (JList (m :: rest')) ->
  inbound rt cfg svc (JDict p) = inbound rt cfg svc (JDict p').
Proof.
  intros Hv Hv' Hm Hm'.
  assert (E : incoming_message rt (JDict p) = incoming_message rt (JDict p')).
  { unfold incoming_message.
    rewrite (locate_conventional rt p _ Hv), (locate_conventional rt p' _ Hv').
    cbn [rbind]. rewrite !py_get_dict.
    rewrite (lookup_get_or _ _ _ _ Hm), (lookup_get_or _ _ _ _ Hm').
    reflexivity. }
  unfold inbound. now rewrite E.
Qed.

(** X21. When the oracle asks for no lookup, no backend request is made: the
    sender is sent the oracle's own answer, or the fixed request for
    make/model/variant when that answer is empty or missing, and the webhook
    answers [{"ok": true}] whether or not the sending worked. *)
Theorem direct_answer_is_relayed
    (payload from_number text : json) (chat : ChatCompletion)
    (message : Message) (others : list Message) :
  incoming_message rt payload = Return (Some (from_number, text)) ->
  chat_completions_create svc (chat_request text) = Return chat ->
  choices chat = message :: others ->
  tool_calls message = None \/ tool_calls message = Some [] ->
  let reply :=
    match content message with
    | Some (c :: s) => c :: s
    | _ => u "Tell me the make/model/variant or model code, and build year/month."
    end in
  inbound rt cfg svc payload =
  (ChatCreate (chat_request text) ::
   send_request cfg from_number reply :: send_log cfg svc from_number reply,
   Return ok_true).
Proof.
  intros Hin Hchat Hchoices Hcalls reply.
  unfold inbound. rewrite Hin. cbn [lift bind].
  unfold respond. rewrite Hchat. cbn [bind lift]. rewrite Hchoices.
  cbn [bind lift].
  destruct Hcalls as [Hc|Hc]; rewrite Hc; cbn [ret bind app]; fold reply;
    rewrite send_attempt; cbn [ret bind app]; now rewrite app_nil_r.
Qed.

(** X22. When the oracle call raises, or returns no choice, the exception
    leaves the handler after that one call: no backend request is made and
    nothing is sent. *)
Theorem oracle_failure_propagates (payload from_number text : json) :
  incoming_message rt payload = Return (Some (from_number, text)) ->
  (forall e : exn,
     chat_completions_create svc (chat_request text) = Raise e ->
     inbound rt cfg svc payload = ([ChatCreate (chat_request text)], Raise e))
  /\ (chat_completions_create svc (chat_request text)
      = Return {| choices := [] |} ->
      inbound rt cfg svc payload
      = ([ChatCreate (chat_request text)],
         Raise (Exn IndexError (u "list index out of range")))).
Proof.
  intros Hin. split.
  - intros e Hchat. unfold inbound. rewrite Hin. cbn [lift bind].
    unfold respond. now rewrite Hchat.
  - intros Hchat. unfold inbound. rewrite Hin. cbn [lift bind].
    unfold respond. now rewrite Hchat.
Qed.

(** X23. When the arguments of the oracle's tool call do not parse, the
    parser's exception leaves the handler: no backend request is made and
    nothing is sent, not even an apology. *)
Theorem malformed_arguments_propagate
    (payload from_number text : json) (chat : ChatCompletion)
    (message : Message) (others : list Message)
    (call : ToolCall) (calls : list ToolCall) (e : exn) :
  incoming_message rt payload = Return (Some (from_number, text)) ->
  chat_completions_create svc (chat_request text) = Return chat ->
  choices chat = message :: others ->
  tool_calls message = Some (call :: calls) ->
  json_loads rt (function_arguments call) = Raise e ->
  inbound rt cfg svc payload = ([ChatCreate (chat_request text)], Raise e).
Proof.
  intros Hin Hchat Hchoices Hcalls Hargs.
  unfold inbound. rewrite Hin. cbn [lift bind].
  unfold respond. rewrite Hchat. cbn [bind lift]. rewrite Hchoices.
  cbn [bind lift]. now rewrite Hcalls, Hargs.
Qed.

(** X24. When the backend answers and the reply composes, the handler has
    made one oracle call, one backend request with the arguments of the
    first tool call (later tool calls are not used) and one send of the
    composed reply to the sender, and answers [{"ok": true}]. *)
Theorem composed_reply_is_sent
    (payload from_number text args data : json) (chat : ChatCompletion)
    (message : Message) (others : list Message)
    (call : ToolCall) (calls : list ToolCall) (reply : str) :
  incoming_message rt payload = Return (Some (from_number, text)) ->
  chat_completions_create svc (chat_request text) = Return chat ->
  choices chat = message :: others ->
  tool_calls message = Some (call :: calls) ->
  json_loads rt (function_arguments call) = Return args ->
  snd (call_sevs cfg svc args) = Return data ->
  compose_reply rt data = Return reply ->
  inbound rt cfg svc payload =
  (ChatCreate (chat_request text) :: backend_request cfg args ::
   send_request cfg from_number reply :: send_log cfg svc from_number reply,
   Return ok_true).
Proof.
  intros Hin Hchat Hchoices Hcalls Hargs Hdata Hreply.
  pose proof (call_sevs_request cfg svc args) as Hreq.
  destruct (call_sevs cfg svc args) as [t outcome] eqn:Ecall.
  cbn in Hreq, Hdata. subst t outcome.
  unfold inbound. rewrite Hin. cbn [lift bind].
  unfold respond. rewrite Hchat. cbn [bind lift]. rewrite Hchoices.
  cbn [bind lift]. rewrite Hcalls, Hargs. cbn [bind lift app].
  rewrite Ecall. cbn [bind lift]. rewrite Hreply.
  cbn [bind try_except ret app]. rewrite send_attempt.
  cbn [ret bind app]. now rewrite app_nil_r.
Qed.

(** X25. When the backend answers but the reply cannot be composed from its
    data ([compose_reply] raises), the sender is told that the SEVS service
    could not be reached, followed by the text of that exception. *)
Theorem compose_failure_is_reported_as_unreachable
    (payload from_number text args data : json) (chat : ChatCompletion)
    (message : Message) (others : list Message)
    (call : ToolCall) (calls : list ToolCall) (e : exn) :
  incoming_message rt payload = Return (Some (from_number, text)) ->
  chat_completions_create svc (chat_request text) = Return chat ->
  choices chat = message :: others ->
  tool_calls message = Some (call :: calls) ->
  json_loads rt (function_arguments call) = Return args ->
  snd (call_sevs cfg svc args) = Return data ->
  compose_reply rt data = Raise e ->
  let reply := u "I couldn’t reach the SEVS service. " ++ exn_text e in
  inbound rt cfg svc payload =
  (ChatCreate (chat_request text) :: backend_request cfg args ::
   send_request cfg from_number reply :: send_log cfg svc from_number reply,
   Return ok_true).
Proof.
  intros Hin Hchat Hchoices Hcalls Hargs Hdata Hreply reply.
  pose proof (call_sevs_request cfg svc args) as Hreq.
  destruct (call_sevs cfg svc args) as [t outcome] eqn:Ecall.
  cbn in Hreq, Hdata. subst t outcome.
  unfold inbound. rewrite Hin. cbn [lift bind].
  unfold respond. rewrite Hchat. cbn [bind lift]. rewrite Hchoices.
  cbn [bind lift]. rewrite Hcalls, Hargs. cbn [bind lift app].
  rewrite Ecall. cbn [bind lift]. rewrite Hreply.
  cbn [bind try_except ret app]. fold reply. rewrite send_attempt.
  cbn [ret bind app]. now rewrite app_nil_r.
Qed.

End InboundEdges.

Section InboundBudget.

Variable rt : Runtime.
Variable cfg : Config.
Variable svc : Services.

Ltac count_events :=
  unfold send_log, backend_request, send_request;
  repeat match goal with
         | |- context [snd ?c] => destruct (snd c)
         end;
  cbn; repeat split; try lia; try discriminate;
  try (now left); try (right; eexists; eexists; reflexivity).

(** X26. Whatever the payload and whatever the services do, one delivery
    causes at most one oracle call, at most two HTTP requests (the backend
    query and the send) and at most one printed line; nothing is requested
    before the oracle call, and when an exception leaves the handler no HTTP
    request has been made. *)
Theorem inbound_call_budget (payload : json) :
  let t := fst (inbound rt cfg svc payload) in
  List.length (filter is_chat t) <= 1
  /\ List.length (filter is_post t) <= 2
  /\ List.length (filter is_print t) <= 1
  /\ (t = [] \/ exists req rest, t = ChatCreate req :: rest)
  /\ (forall e, snd (inbound rt cfg svc payload) = Raise e ->
      filter is_post t = []).
Proof.
  unfold inbound.
  destruct (incoming_message rt payload) as [[[from_number text]|]|e0];
    cbn [lift bind ret fst snd]; [|count_events|count_events].
  unfold respond.
  destruct (chat_completions_create svc (chat_request text)) as [chat|e0];
    cbn [lift bind ret fst snd]; [|count_events].
  destruct (choices chat) as [|message others];
    cbn [lift bind ret fst snd]; [count_events|].
  destruct (tool_calls message) as [[|call calls]|];
    cbn [lift bind ret fst snd app].
  - rewrite send_attempt. cbn [lift bind ret fst snd app]. count_events.
  - destruct (json_loads rt (function_arguments call)) as [args|e0];
      cbn [lift bind ret fst snd app]; [|count_events].
    pose proof (call_sevs_request cfg svc args) as Hreq.
    destruct (call_sevs cfg svc args) as [t outcome].
    cbn in Hreq. subst t.
    destruct outcome as [data|e0]; cbn [lift bind ret fst snd app try_except].
    + destruct (compose_reply rt data) as [reply|e0];
        cbn [lift bind ret fst snd app try_except];
        rewrite send_attempt; cbn [lift bind ret fst snd app]; count_events.
    + rewrite send_attempt. cbn [lift bind ret fst snd app]. count_events.
  - rewrite send_attempt. cbn [lift bind ret fst snd app]. count_events.
Qed.

End InboundBudget.

(** * The further properties on concrete inputs *)

Lemma delivery_conventional (value : json) :
  conventional (delivery value) value.
Proof.
  exists [(u "changes", JList [JDict [(u "value", value)]])],
         [(u "value", value)], [], [].
  repeat split; vm_compute; reflexivity.
Qed.

Lemma falsy_ok_is_failure_witness :
  compose_reply ascii_runtime (JDict envelope_without_ok) =
  Return (u "I couldn’t retrieve SEVS data right now. Try again in a moment.").
Proof.
  apply (falsy_ok_is_failure ascii_runtime envelope_without_ok).
  vm_compute. reflexivity.
Defined.

Lemma single_row_line_order_witness :
  compose_reply ascii_runtime (JDict expiring_envelope) =
  Return (u "**Eligible**" ++ newline ++
          u "Build window: 2015-01 → ?." ++ newline ++
          u "SEVS entry expires 2026-03-31 (0 days)." ++ newline ++
          u "Flag: expiring soon. Start compliance steps ASAP." ++ newline ++
          u "Model report: unknown." ++ newline ++
          u "Closest alternatives: SR, ?, ? GUN125R.").
Proof.
  etransitivity.
  - apply (single_row_line_order ascii_runtime expiring_envelope expiring_row);
      vm_compute; reflexivity.
  - vm_compute. reflexivity.
Defined.

Lemma expiry_line_shows_days_witness :
  exists reply : str,
    compose_reply ascii_runtime (JDict expiring_envelope) = Return reply
    /\ contains (u " (0 days).") reply = true.
Proof.
  destruct (expiry_line_shows_days ascii_runtime expiring_envelope expiring_row)
    as [reply [E [_ H]]]; try (vm_compute; reflexivity).
  exists reply. split; [exact E|]. apply H. vm_compute. reflexivity.
Defined.

Lemma build_window_bounds_witness :
  exists reply : str,
    compose_reply ascii_runtime (JDict expiring_envelope) = Return reply
    /\ contains (u "Build window: 2015-01 → ?.") reply = true.
Proof.
  destruct (build_window_bounds ascii_runtime expiring_envelope expiring_row
              [(u "from", JStr (u "2015-01"))])
    as [reply [E [H _]]]; try (vm_compute; reflexivity).
  exists reply. split; [exact E|]. apply H. vm_compute. reflexivity.
Defined.

Lemma multi_match_ignores_later_rows_witness :
  compose_reply ascii_runtime (JDict five_rows_envelope) =
  compose_reply ascii_runtime
    (JDict (dict_set five_rows_envelope (u "data")
              (JList (firstn 3 five_rows ++ [JBool true])))).
Proof.
  apply (multi_match_ignores_later_rows ascii_runtime five_rows_envelope
           five_rows (firstn 3 five_rows ++ [JBool true]));
    first [ vm_compute; reflexivity
          | apply Nat.ltb_lt; vm_compute; reflexivity ].
Defined.

Lemma top_level_alternates_unused_witness :
  compose_reply ascii_runtime
    (JDict (dict_set hilux_envelope (u "alternates") (JStr (u "none"))))
  = compose_reply ascii_runtime (JDict hilux_envelope).
Proof.
  apply (top_level_alternates_unused ascii_runtime hilux_envelope).
  vm_compute. reflexivity.
Defined.

Lemma malformed_top_level_alternate_witness :
  exists e : exn,
    compose_reply ascii_runtime (JDict six_alternates_envelope) = Raise e
    /\ exn_cls e = AttributeError.
Proof.
  apply (malformed_top_level_alternate ascii_runtime six_alternates_envelope
           [JDict [(u "variant", JStr (u "SR"))];
            JDict [(u "variant", JStr (u "SR5"))];
            JDict [(u "variant", JStr (u "Rogue"))];
            JDict [(u "variant", JStr (u "Rugged"))];
            JDict [(u "variant", JStr (u "Workmate"))];
            JStr (u "GXL")]);
    vm_compute; reflexivity.
Defined.

Lemma row_alternates_beyond_third_unused_witness :
  compose_reply ascii_runtime (JDict expiring_envelope) =
  compose_reply ascii_runtime
    (JDict (dict_set expiring_envelope (u "data")
              (JList [JDict (dict_set expiring_row (u "alternates")
                               (JList [JDict [(u "variant", JStr (u "SR"))];
                                       JDict [];
                                       JDict [(u "model_code",
                                               JStr (u "GUN125R"))]]))]))).
Proof.
  apply (row_alternates_beyond_third_unused ascii_runtime expiring_envelope
           expiring_row
           [JDict [(u "variant", JStr (u "SR"))]; JDict [];
            JDict [(u "model_code", JStr (u "GUN125R"))]; JInt 7]);
    first [ vm_compute; reflexivity | discriminate ].
Defined.

Lemma alternate_text_is_stripped_witness :
  format_alternate ascii_runtime (JDict []) = Return (u "?").
Proof.
  destruct (alternate_text_is_stripped ascii_runtime []) as [t [E [_ H]]].
  rewrite E. f_equal. apply H; vm_compute; reflexivity.
Defined.

Lemma report_without_status_witness :
  exists reply : str,
    compose_reply ascii_runtime (JDict expiring_envelope) = Return reply
    /\ has_line (u "Model report: unknown.") reply = true.
Proof.
  apply (proj1 (report_without_status ascii_runtime expiring_envelope
                  expiring_row [(u "has_report", JBool true)]
                  ltac:(vm_compute; reflexivity)
                  ltac:(vm_compute; reflexivity)
                  ltac:(vm_compute; reflexivity)));
    vm_compute; reflexivity.
Defined.

Lemma verify_digit_without_decimal_witness :
  exists e : exn,
    verify sample_unicode_runtime demo_config (Some (u "subscribe"))
      (Some (u "2²")) (Some (VERIFY_TOKEN demo_config)) = Raise e
    /\ exn_cls e = ValueError.
Proof.
  apply (verify_digit_without_decimal sample_unicode_runtime demo_config
           (u "2²") 178%N).
  - vm_compute. reflexivity.
  - vm_compute. right. left. reflexivity.
  - vm_compute. reflexivity.
Defined.

Lemma verify_decimal_digits_witness :
  verify sample_unicode_runtime demo_config (Some (u "subscribe"))
    (Some (u "١٢٣")) (Some (VERIFY_TOKEN demo_config))
  = Return (JInt 123).
Proof.
  etransitivity.
  - apply (verify_decimal_digits sample_unicode_runtime demo_config (u "١٢٣")).
    + vm_compute. reflexivity.
    + intros x Hx. vm_compute in Hx.
      destruct Hx as [<-|[<-|[<-|[]]]]; vm_compute; discriminate.
    + right. left. apply Nat.leb_le. vm_compute. reflexivity.
  - vm_compute. reflexivity.
Defined.


Lemma call_sevs_returns_witness :
  snd (call_sevs demo_config redirecting_backend (JDict []))
  = Return (JDict [(u "ok", JBool false)]).
Proof.
  apply (proj2 (call_sevs_returns demo_config redirecting_backend (JDict [])
                  (JDict [(u "ok", JBool false)]))).
  exists redirect_response.
  split; [vm_compute; reflexivity|]. split; [|vm_compute; reflexivity].
  vm_compute. intros [H _]. apply H. reflexivity.
Defined.

Lemma send_whatsapp_text_succeeds_witness :
  snd (send_whatsapp_text demo_config silent_transport sender (u "hello"))
  = Return tt.
Proof.
  apply (proj2 (send_whatsapp_text_succeeds demo_config silent_transport
                  sender (u "hello"))).
  exists empty_body_response. split; [vm_compute; reflexivity|].
  vm_compute. intros [H _]. apply H. reflexivity.
Defined.

Lemma empty_entry_or_changes_raises_witness :
  inbound ascii_runtime demo_config backend_down (JDict empty_entry_delivery)
  = ([], Raise (Exn IndexError (u "list index out of range"))).
Proof.
  apply (proj1 (empty_entry_or_changes_raises ascii_runtime demo_config
                  backend_down empty_entry_delivery)).
  vm_compute. reflexivity.
Defined.

Lemma literal_changes_key_is_used_witness :
  locate_value ascii_runtime (JDict literal_key_delivery)
  = Return (JDict [(u "statuses", JList [])]).
Proof.
  apply (literal_changes_key_is_used ascii_runtime literal_key_delivery
           [(u "changes", JList []);
            (u "changes[0]",
             JDict [(u "value", JDict [(u "statuses", JList [])])])]
           [(u "value", JDict [(u "statuses", JList [])])] []);
    vm_compute; reflexivity.
Defined.

Lemma non_object_body_raises_witness :
  exists e : exn,
    inbound ascii_runtime demo_config backend_down (JList []) = ([], Raise e)
    /\ exn_cls e = AttributeError.
Proof.
  apply (non_object_body_raises ascii_runtime demo_config backend_down).
  reflexivity.
Defined.

Lemma message_text_source_witness :
  incoming_message ascii_runtime (JDict text_delivery)
  = Return (Some (sender, question)).
Proof.
  apply (proj1 (message_text_source ascii_runtime text_delivery
                  [(u "messages",
                    JList [JDict [(u "from", sender);
                                  (u "text", JDict [(u "body", question)])]])]
                  [(u "from", sender); (u "text", JDict [(u "body", question)])]
                  [] sender
                  (delivery_conventional _)
                  ltac:(vm_compute; reflexivity)
                  ltac:(vm_compute; reflexivity))
           [(u "body", question)]);
    vm_compute; reflexivity.
Defined.

Lemma only_first_message_is_read_witness :
  inbound ascii_runtime demo_config backend_down (JDict text_delivery)
  = inbound ascii_runtime demo_config backend_down (JDict two_message_delivery).
Proof.
  apply (only_first_message_is_read ascii_runtime demo_config backend_down
           text_delivery two_message_delivery
           [(u "messages",
             JList [JDict [(u "from", sender);
                           (u "text", JDict [(u "body", question)])]])]
           [(u "messages",
             JList [JDict [(u "from", sender);
                           (u "text", JDict [(u "body", question)])];
                    JStr (u "not a message")])]
           (JDict [(u "from", sender); (u "text", JDict [(u "body", question)])])
           [] [JStr (u "not a message")]);
    first [ apply delivery_conventional | vm_compute; reflexivity ].
Defined.

Lemma direct_answer_is_relayed_witness :
  inbound ascii_runtime demo_config oracle_answers (JDict text_delivery) =
  ([ChatCreate (chat_request question);
    send_request demo_config sender
      (u "SEVS is the Specialist and Enthusiast Vehicle Scheme.")],
   Return ok_true).
Proof.
  etransitivity.
  - apply (direct_answer_is_relayed ascii_runtime demo_config oracle_answers
             (JDict text_delivery) sender question
             {| choices := [answer_message] |} answer_message []);
      first [ vm_compute; reflexivity | left; vm_compute; reflexivity ].
  - vm_compute. reflexivity.
Defined.

Lemma oracle_failure_propagates_witness :
  inbound ascii_runtime demo_config oracle_down (JDict text_delivery) =
  ([ChatCreate (chat_request question)],
   Raise (Exn (External (u "APIConnectionError")) (u "Connection error."))).
Proof.
  apply (proj1 (oracle_failure_propagates ascii_runtime demo_config oracle_down
                  (JDict text_delivery) sender question
                  ltac:(vm_compute; reflexivity))).
  vm_compute. reflexivity.
Defined.

Lemma malformed_arguments_propagate_witness :
  inbound ascii_runtime demo_config oracle_garbles (JDict text_delivery) =
  ([ChatCreate (chat_request question)],
   Raise (Exn (External (u "JSONDecodeError")) (u "Expecting value"))).
Proof.
  apply (malformed_arguments_propagate ascii_runtime demo_config oracle_garbles
           (JDict text_delivery) sender question
           {| choices :=
                [{| tool_calls := Some [{| function_arguments := u "{query" |}];
                    content := None |}] |}
           {| tool_calls := Some [{| function_arguments := u "{query" |}];
              content := None |} []
           {| function_arguments := u "{query" |} []);
    vm_compute; reflexivity.
Defined.

Lemma composed_reply_is_sent_witness :
  inbound ascii_runtime demo_config (backend_answers (JDict hilux_envelope))
    (JDict text_delivery) =
  ([ChatCreate (chat_request question);
    backend_request demo_config (JDict []);
    send_request demo_config sender
      (u "**Eligible**" ++ newline ++
       u "No valid model report on record; compliance not currently possible.")],
   Return ok_true).
Proof.
  etransitivity.
  - apply (composed_reply_is_sent ascii_runtime demo_config
             (backend_answers (JDict hilux_envelope))
             (JDict text_delivery) sender question (JDict [])
             (JDict hilux_envelope)
             {| choices := [lookup_message] |} lookup_message []
             lookup_call []
             (u "**Eligible**" ++ newline ++
              u "No valid model report on record; compliance not currently possible."));
      vm_compute; reflexivity.
  - vm_compute. reflexivity.
Defined.

Lemma compose_failure_is_reported_as_unreachable_witness :
  inbound ascii_runtime demo_config (backend_answers (JList []))
    (JDict text_delivery) =
  ([ChatCreate (chat_request question);
    backend_request demo_config (JDict []);
    send_request demo_config sender
      (u "I couldn’t reach the SEVS service. 'list' object has no attribute 'get'")],
   Return ok_true).
Proof.
  etransitivity.
  - apply (compose_failure_is_reported_as_unreachable ascii_runtime demo_config
             (backend_answers (JList []))
             (JDict text_delivery) sender question (JDict []) (JList [])
             {| choices := [lookup_message] |} lookup_message []
             lookup_call []
             (Exn AttributeError (u "'list' object has no attribute 'get'")));
      vm_compute; reflexivity.
  - vm_compute. reflexivity.
Defined.

Lemma inbound_call_budget_witness :
  filter is_post
    (fst (inbound ascii_runtime demo_config oracle_down (JDict text_delivery)))
  = [].
Proof.
  apply (proj2 (proj2 (proj2 (proj2
           (inbound_call_budget ascii_runtime demo_config oracle_down
              (JDict text_delivery)))))
           (Exn (External (u "APIConnectionError")) (u "Connection error."))).
  vm_compute. reflexivity.
Defined.
